(** * Invoice verifier: line-item reconciliation, comparators and report

    A shallow embedding of [ComprehensiveInvoiceVerifier]
    (invoice_verifier.py): the field comparators, the greedy line-item
    matcher [compare_line_items], the header checks of [verify], the text of
    [generate_report] and the record guards of the two extractors.

    Conventions of the embedding.
    - A Python value that can sit in a line-item field is a [pyval].
      Python floats are idealised as rationals ([Q]): rounding error, NaN and
      infinities are outside the model. A [PFloat] is therefore a finite
      float; a statement that needs the numbers it compares to be finite
      leaves out the texts, which [float] may read as an infinity or as
      not-a-number ([null_or_number], [finite_fields]).
    - Strings are [string] (byte strings); case folding and white space are
      the ASCII ones.
    - What the interpreter does when it turns text into a number and a float
      into text is taken as a [PyRuntime], so every statement holds for any
      such behaviour. *)

From Stdlib Require Import ZArith QArith Qabs Ascii String Bool Lia.
From stdpp Require Import base decidable option list gmap.

Local Close Scope Q_scope.
Local Open Scope string_scope.

(** ** Python values *)

Inductive pyval : Type :=
| PNone
| PInt (z : Z)
| PFloat (q : Q)
| PStr (s : string).

(** What the embedding needs from the interpreter: [float(s)] and [int(s)]
    on text ([None] when Python raises [ValueError]) and [str(x)] of a
    float. *)
Class PyRuntime : Type := {
  float_of_str : string -> option Q;
  int_of_str : string -> option Z;
  repr_float : Q -> string
}.

Module Py.

(** Truth value of an object: [None], zero and the empty string are false. *)
Definition truthy (v : pyval) : bool :=
  match v with
  | PNone => false
  | PInt z => negb (Z.eqb z 0)
  | PFloat q => negb (Qeq_bool q 0)
  | PStr s => negb (String.eqb s "")
  end.

Definition is_none (v : pyval) : bool :=
  match v with PNone => true | _ => false end.

Definition digit_char (n : nat) : ascii :=
  ascii_of_nat (48 + n).

(** Decimal digits of a natural number, most significant first. *)
Fixpoint nat_digits (fuel n : nat) (acc : string) : string :=
  match fuel with
  | O => acc
  | S fuel' =>
      let acc' := String (digit_char (n mod 10)) acc in
      if Nat.eqb (n / 10) 0 then acc' else nat_digits fuel' (n / 10) acc'
  end.

Definition str_of_nat (n : nat) : string := nat_digits (S n) n "".

Definition str_of_Z (z : Z) : string :=
  match z with
  | Zneg p => String "-" (str_of_nat (Pos.to_nat p))
  | _ => str_of_nat (Z.to_nat z)
  end.

(** [str(v)]. *)
Definition str `{PyRuntime} (v : pyval) : string :=
  match v with
  | PNone => "None"
  | PInt z => str_of_Z z
  | PFloat q => repr_float q
  | PStr s => s
  end.

(** [float(v)]; [None] stands for the raised [TypeError]/[ValueError]. *)
Definition float `{PyRuntime} (v : pyval) : option Q :=
  match v with
  | PNone => None
  | PInt z => Some (inject_Z z)
  | PFloat q => Some q
  | PStr s => float_of_str s
  end.

(** [a == b] on field values. *)
Definition eq (a b : pyval) : bool :=
  match a, b with
  | PNone, PNone => true
  | PInt x, PInt y => Z.eqb x y
  | PFloat x, PFloat y => Qeq_bool x y
  | PInt x, PFloat y => Qeq_bool (inject_Z x) y
  | PFloat x, PInt y => Qeq_bool x (inject_Z y)
  | PStr s, PStr t => String.eqb s t
  | _, _ => false
  end.

(** [x < y] on floats. *)
Definition Qltb (x y : Q) : bool := negb (Qle_bool y x).

(** White space as [str.strip()] and the pattern [\s] see it (ASCII). *)
Definition is_space (c : ascii) : bool :=
  let n := nat_of_ascii c in
  ((9 <=? n)%nat && (n <=? 13)%nat) || ((28 <=? n)%nat && (n <=? 32)%nat).

Definition lower_char (c : ascii) : ascii :=
  let n := nat_of_ascii c in
  if (65 <=? n)%nat && (n <=? 90)%nat then ascii_of_nat (n + 32) else c.

Fixpoint lower (s : string) : string :=
  match s with
  | EmptyString => EmptyString
  | String c r => String (lower_char c) (lower r)
  end.

Fixpoint lstrip (s : string) : string :=
  match s with
  | EmptyString => EmptyString
  | String c r => if is_space c then lstrip r else s
  end.

Fixpoint rstrip (s : string) : string :=
  match s with
  | EmptyString => EmptyString
  | String c r =>
      let r' := rstrip r in
      if is_space c && String.eqb r' "" then "" else String c r'
  end.

Definition strip (s : string) : string := rstrip (lstrip s).

(** [re.sub(r'\s+', ' ', s)]: every maximal run of white space becomes one
    blank. [in_run] tells that the previous character was white space. *)
Fixpoint sub_spaces (in_run : bool) (s : string) : string :=
  match s with
  | EmptyString => EmptyString
  | String c r =>
      if is_space c
      then (if in_run then sub_spaces true r
            else String " " (sub_spaces true r))
      else String c (sub_spaces false r)
  end.

(** [needle in hay] on strings. *)
Fixpoint contains (needle hay : string) : bool :=
  String.prefix needle hay ||
  match hay with
  | EmptyString => false
  | String _ r => contains needle r
  end.

(** [s.replace(c, '')] for a one-character [c]. *)
Fixpoint remove_char (c : ascii) (s : string) : string :=
  match s with
  | EmptyString => EmptyString
  | String d r =>
      if Ascii.eqb c d then remove_char c r else String d (remove_char c r)
  end.

(** [s[:n]]. *)
Fixpoint take (n : nat) (s : string) : string :=
  match n, s with
  | S n', String c r => String c (take n' r)
  | _, _ => EmptyString
  end.

(** [s * n]. *)
Fixpoint repeat_str (s : string) (n : nat) : string :=
  match n with
  | O => EmptyString
  | S n' => s ++ repeat_str s n'
  end.

(** ["\n".join(lines)]. *)
Fixpoint join_lines (lines : list string) : string :=
  match lines with
  | [] => EmptyString
  | [l] => l
  | l :: rest => l ++ String "010" (join_lines rest)
  end.

End Py.

(** ** Field normaliser *)

Section Normalizer.
Context `{PyRuntime}.

(** [normalize_description]. *)
Definition normalize_description (desc : pyval) : string :=
  if negb (Py.truthy desc) then ""
  else Py.sub_spaces false (Py.lower (Py.strip (Py.str desc))).

(** [compare_values]: the [try] succeeds when both conversions do, else the
    bare [except] compares the two [str] renderings. *)
Definition compare_values (val1 val2 : pyval) (tolerance : Q) : bool :=
  if Py.is_none val1 && Py.is_none val2 then true
  else if Py.is_none val1 || Py.is_none val2 then false
  else match Py.float val1, Py.float val2 with
       | Some x, Some y => Py.Qltb (Qabs (x - y)) tolerance
       | _, _ => String.eqb (Py.str val1) (Py.str val2)
       end.

(** The default of the keyword argument [tolerance]. *)
Definition default_tolerance : Q := 1 # 100.

(** The description test of the matcher:
    [excel_desc_norm in pdf_desc_norm or pdf_desc_norm in excel_desc_norm]. *)
Definition desc_match (excel_desc pdf_desc : pyval) : bool :=
  let excel_desc_norm := normalize_description excel_desc in
  let pdf_desc_norm := normalize_description pdf_desc in
  Py.contains excel_desc_norm pdf_desc_norm
  || Py.contains pdf_desc_norm excel_desc_norm.

End Normalizer.

(** ** Data model of the matcher *)

(** A line-item dictionary. Both extractors build it with the eight compared
    keys always present (an unknown value is [None]), so the defaults of the
    [.get] calls of the matcher never apply; only the tabular extractor adds
    the key ['rank'], which nothing downstream reads. *)
Record LineItem : Type := {
  rank : option pyval;
  quantity : pyval;
  net_weight : pyval;
  description : pyval;
  hs_code : pyval;
  country_code : pyval;
  year : pyval;
  unit_value : pyval;
  total_value : pyval
}.

(** The dictionary [differences]: one flag per compared field, [true] when
    the two sides agree. *)
Module Diff.
Record t : Type := {
  quantity : bool;
  net_weight : bool;
  description : bool;
  hs_code : bool;
  country_code : bool;
  year : bool;
  unit_value : bool;
  total_value : bool
}.
End Diff.

(** An entry of [results['mismatches']]. *)
Record Mismatch : Type := {
  excel_item : LineItem;
  pdf_item : LineItem;
  differences : Diff.t;
  match_score : string
}.

(** The dictionary [results] returned by [compare_line_items]. *)
Record Results : Type := {
  total_excel : nat;
  total_pdf : nat;
  perfect_matches : nat;
  mismatches : list Mismatch;
  unmatched_excel : list LineItem;
  unmatched_pdf : list LineItem
}.

(** The locals of [compare_line_items] that live across iterations.
    [perfect_pairs] and [partial_pairs] are ghost fields: the source keeps
    only a counter for perfect matches, the ghost lists remember which
    (excel_idx, pdf_idx) each branch claimed, oldest first. No other field
    is computed from them. *)
Record MatcherState : Type := {
  results : Results;
  matched_pdf_indices : gset nat;
  matched_excel_indices : gset nat;
  perfect_pairs : list (nat * nat);
  partial_pairs : list (nat * nat)
}.

(** The locals [best_match_score] and [best_match], [best_match_idx],
    [best_differences]; the last three are set together, so they are one
    optional triple. *)
Record Best : Type := {
  best_match_score : nat;
  best_match : option (LineItem * nat * Diff.t)
}.

(** [enumerate(l)]. *)
Fixpoint enumerate_from {A : Type} (n : nat) (l : list A) : list (nat * A) :=
  match l with
  | [] => []
  | x :: r => (n, x) :: enumerate_from (S n) r
  end.

Definition enumerate {A : Type} (l : list A) : list (nat * A) :=
  enumerate_from 0 l.

(** ** The line-item matcher *)

Section Matcher.
Context `{PyRuntime}.

(** The eight field tests of one candidate pair (lines 269-280). *)
Definition field_agreement (e p : LineItem) : Diff.t :=
  {| Diff.quantity :=
       compare_values (quantity e) (quantity p) default_tolerance;
     Diff.net_weight :=
       compare_values (net_weight e) (net_weight p) default_tolerance;
     Diff.description := desc_match (description e) (description p);
     Diff.hs_code := String.eqb (Py.str (hs_code e)) (Py.str (hs_code p));
     Diff.country_code :=
       String.eqb (Py.str (country_code e)) (Py.str (country_code p));
     Diff.year := Py.eq (year e) (year p);
     Diff.unit_value :=
       compare_values (unit_value e) (unit_value p) default_tolerance;
     Diff.total_value :=
       compare_values (total_value e) (total_value p) default_tolerance |}.

Definition bump (b : bool) (score : nat) : nat :=
  if b then score + 1 else score.

(** The score out of 8 (lines 283-290). *)
Definition score_of (d : Diff.t) : nat :=
  bump (Diff.total_value d)
    (bump (Diff.unit_value d)
      (bump (Diff.year d)
        (bump (Diff.country_code d)
          (bump (Diff.hs_code d)
            (bump (Diff.description d)
              (bump (Diff.net_weight d)
                (bump (Diff.quantity d) 0))))))).

Definition score (e p : LineItem) : nat := score_of (field_agreement e p).

Definition init_results (excel_items pdf_items : list LineItem) : Results :=
  {| total_excel := length excel_items;
     total_pdf := length pdf_items;
     perfect_matches := 0;
     mismatches := [];
     unmatched_excel := [];
     unmatched_pdf := [] |}.

Definition init_state (excel_items pdf_items : list LineItem)
  : MatcherState :=
  {| results := init_results excel_items pdf_items;
     matched_pdf_indices := ∅;
     matched_excel_indices := ∅;
     perfect_pairs := [];
     partial_pairs := [] |}.

(** Lines 305-307: a perfect match is counted and both indices claimed. *)
Definition claim_perfect (st : MatcherState) (excel_idx pdf_idx : nat)
  : MatcherState :=
  let r := results st in
  {| results :=
       {| total_excel := total_excel r;
          total_pdf := total_pdf r;
          perfect_matches := perfect_matches r + 1;
          mismatches := mismatches r;
          unmatched_excel := unmatched_excel r;
          unmatched_pdf := unmatched_pdf r |};
     matched_pdf_indices := matched_pdf_indices st ∪ {[pdf_idx]};
     matched_excel_indices := matched_excel_indices st ∪ {[excel_idx]};
     perfect_pairs := perfect_pairs st ++ [(excel_idx, pdf_idx)];
     partial_pairs := partial_pairs st |}.

(** Lines 319-326: the best partial candidate is appended to
    ['mismatches'] and both indices claimed. *)
Definition record_partial (st : MatcherState) (excel_idx : nat)
    (e : LineItem) (best_score : nat) (p : LineItem) (pdf_idx : nat)
    (d : Diff.t) : MatcherState :=
  let r := results st in
  {| results :=
       {| total_excel := total_excel r;
          total_pdf := total_pdf r;
          perfect_matches := perfect_matches r;
          mismatches :=
            mismatches r ++
            [ {| excel_item := e;
                 pdf_item := p;
                 differences := d;
                 match_score := Py.str_of_nat best_score ++ "/8" |} ];
          unmatched_excel := unmatched_excel r;
          unmatched_pdf := unmatched_pdf r |};
     matched_pdf_indices := matched_pdf_indices st ∪ {[pdf_idx]};
     matched_excel_indices := matched_excel_indices st ∪ {[excel_idx]};
     perfect_pairs := perfect_pairs st;
     partial_pairs := partial_pairs st ++ [(excel_idx, pdf_idx)] |}.

(** The inner loop (lines 260-315) over the candidates still to visit.
    A claimed candidate is skipped; a score of 8 claims the pair and
    leaves the loop; otherwise a strictly better score of at least 4
    replaces the best candidate. *)
Fixpoint scan_pdf (excel_idx : nat) (e : LineItem)
    (cands : list (nat * LineItem)) (st : MatcherState) (best : Best)
  : MatcherState * Best :=
  match cands with
  | [] => (st, best)
  | (pdf_idx, p) :: rest =>
      if decide (pdf_idx ∈ matched_pdf_indices st)
      then scan_pdf excel_idx e rest st best
      else
        let d := field_agreement e p in
        let sc := score_of d in
        if Nat.eqb sc 8 then (claim_perfect st excel_idx pdf_idx, best)
        else if Nat.ltb (best_match_score best) sc && Nat.leb 4 sc
        then scan_pdf excel_idx e rest st
               {| best_match_score := sc; best_match := Some (p, pdf_idx, d) |}
        else scan_pdf excel_idx e rest st best
  end.

Definition init_best : Best :=
  {| best_match_score := 0; best_match := None |}.

(** One iteration of the outer loop (lines 255-326). [best_match] is a
    line-item dictionary, never empty, so its truth value is that of
    being set. *)
Definition match_excel_item (pdf_items : list LineItem)
    (st : MatcherState) (ie : nat * LineItem) : MatcherState :=
  let '(excel_idx, e) := ie in
  let '(st1, best) :=
    scan_pdf excel_idx e (enumerate pdf_items) st init_best in
  if decide (excel_idx ∈ matched_excel_indices st1) then st1
  else match best_match best with
       | Some (p, pdf_idx, d) =>
           record_partial st1 excel_idx e (best_match_score best) p pdf_idx d
       | None => st1
       end.

(** The state after the first [k] iterations of the outer loop. *)
Definition state_after (excel_items pdf_items : list LineItem) (k : nat)
  : MatcherState :=
  fold_left (match_excel_item pdf_items)
    (firstn k (enumerate excel_items))
    (init_state excel_items pdf_items).

Definition matching (excel_items pdf_items : list LineItem) : MatcherState :=
  fold_left (match_excel_item pdf_items) (enumerate excel_items)
    (init_state excel_items pdf_items).

(** The items whose index is not in [claimed], in original order
    (lines 329-335). *)
Definition unclaimed (claimed : gset nat) (items : list LineItem)
  : list (nat * LineItem) :=
  filter (fun ip => ip.1 ∉ claimed) (enumerate items).

Definition collect_unmatched (excel_items pdf_items : list LineItem)
    (st : MatcherState) : MatcherState :=
  let r := results st in
  {| results :=
       {| total_excel := total_excel r;
          total_pdf := total_pdf r;
          perfect_matches := perfect_matches r;
          mismatches := mismatches r;
          unmatched_excel :=
            unmatched_excel r ++
            (unclaimed (matched_excel_indices st) excel_items).*2;
          unmatched_pdf :=
            unmatched_pdf r ++
            (unclaimed (matched_pdf_indices st) pdf_items).*2 |};
     matched_pdf_indices := matched_pdf_indices st;
     matched_excel_indices := matched_excel_indices st;
     perfect_pairs := perfect_pairs st;
     partial_pairs := partial_pairs st |}.

(** The whole body of [compare_line_items], locals included. *)
Definition final_state (excel_items pdf_items : list LineItem)
  : MatcherState :=
  collect_unmatched excel_items pdf_items (matching excel_items pdf_items).

(** [compare_line_items]: the returned dictionary. *)
Definition compare_line_items (excel_items pdf_items : list LineItem)
  : Results :=
  results (final_state excel_items pdf_items).

End Matcher.

(** ** Vocabulary of the matcher's properties *)

(** The three places an index can end in. *)
Inductive Outcome : Type := Perfect | Partial | Unmatched.

Section MatcherSpec.
Context `{PyRuntime}.

(** A candidate for the current Excel item: an item of the PDF list whose
    index is not claimed yet. *)
Definition candidate (claimed : gset nat) (pdf_items : list LineItem)
    (j : nat) (p : LineItem) : Prop :=
  pdf_items !! j = Some p /\ j ∉ claimed.

(** The best-candidate locals once the inner loop has visited [cands]
    without leaving early. *)
Fixpoint track_best (e : LineItem) (claimed : gset nat)
    (cands : list (nat * LineItem)) (best : Best) : Best :=
  match cands with
  | [] => best
  | (pdf_idx, p) :: rest =>
      if decide (pdf_idx ∈ claimed) then track_best e claimed rest best
      else
        let d := field_agreement e p in
        let sc := score_of d in
        if Nat.ltb (best_match_score best) sc && Nat.leb 4 sc
        then track_best e claimed rest
               {| best_match_score := sc; best_match := Some (p, pdf_idx, d) |}
        else track_best e claimed rest best
  end.

(** The best-candidate locals hold an unclaimed candidate together with its
    field flags and its score, which is between 4 and 7. *)
Definition best_ok (e : LineItem) (claimed : gset nat)
    (pdf_items : list LineItem) (best : Best) : Prop :=
  match best_match best with
  | Some (p, j, d) =>
      candidate claimed pdf_items j p
      /\ d = field_agreement e p
      /\ best_match_score best = score e p
      /\ 4 <= score e p <= 7
  | None => True
  end.

(** The locals of the source, without the ghost fields. *)
Definition visible (st : MatcherState) : Results * gset nat * gset nat :=
  (results st, matched_pdf_indices st, matched_excel_indices st).

(** All eight fields agree. *)
Definition all_agree (d : Diff.t) : bool :=
  Diff.quantity d && Diff.net_weight d && Diff.description d
  && Diff.hs_code d && Diff.country_code d && Diff.year d
  && Diff.unit_value d && Diff.total_value d.

(** All index pairs claimed so far. *)
Definition claimed_pairs (st : MatcherState) : list (nat * nat) :=
  perfect_pairs st ++ partial_pairs st.

(** Where the Excel index [i] stands in state [st]. *)
Definition excel_outcome (st : MatcherState) (i : nat) (o : Outcome) : Prop :=
  match o with
  | Perfect => i ∈ (perfect_pairs st).*1
  | Partial => i ∈ (partial_pairs st).*1
  | Unmatched => i ∉ matched_excel_indices st
  end.

(** Where the PDF index [j] stands in state [st]. *)
Definition pdf_outcome (st : MatcherState) (j : nat) (o : Outcome) : Prop :=
  match o with
  | Perfect => j ∈ (perfect_pairs st).*2
  | Partial => j ∈ (partial_pairs st).*2
  | Unmatched => j ∉ matched_pdf_indices st
  end.

(** The entry [m] of ['mismatches'] records the pair of indices [ij]. *)
Definition partial_entry (excel_items pdf_items : list LineItem)
    (m : Mismatch) (ij : nat * nat) : Prop :=
  excel_items !! ij.1 = Some (excel_item m)
  /\ pdf_items !! ij.2 = Some (pdf_item m)
  /\ differences m = field_agreement (excel_item m) (pdf_item m)
  /\ match_score m
     = (Py.str_of_nat (score (excel_item m) (pdf_item m)) ++ "/8")%string
  /\ 4 <= score (excel_item m) (pdf_item m) <= 7.

(** What holds of the locals after [k] iterations of the outer loop. *)
Record matcher_inv (excel_items pdf_items : list LineItem) (k : nat)
    (st : MatcherState) : Prop := {
  inv_excel_set :
    forall i, i ∈ matched_excel_indices st <-> i ∈ (claimed_pairs st).*1;
  inv_pdf_set :
    forall j, j ∈ matched_pdf_indices st <-> j ∈ (claimed_pairs st).*2;
  inv_excel_nodup : NoDup (claimed_pairs st).*1;
  inv_pdf_nodup : NoDup (claimed_pairs st).*2;
  inv_range :
    forall i j, (i, j) ∈ claimed_pairs st ->
      i < k /\ i < length excel_items /\ j < length pdf_items;
  inv_count : perfect_matches (results st) = length (perfect_pairs st);
  inv_perfect :
    forall i j, (i, j) ∈ perfect_pairs st ->
      exists e p, excel_items !! i = Some e /\ pdf_items !! j = Some p
                  /\ score e p = 8;
  inv_partial :
    Forall2 (partial_entry excel_items pdf_items)
      (mismatches (results st)) (partial_pairs st);
  inv_totals :
    total_excel (results st) = length excel_items
    /\ total_pdf (results st) = length pdf_items;
  inv_unmatched :
    unmatched_excel (results st) = [] /\ unmatched_pdf (results st) = []
}.

End MatcherSpec.

(** ** Header checks and report *)

(** What an extractor returns: ['contact_name'], ['purpose_of_shipment'] and
    ['line_items']. *)
Record Extracted : Type := {
  contact_name : pyval;
  purpose_of_shipment : pyval;
  line_items : list LineItem
}.

(** [verification_results['contact_name']]. *)
Record ContactCheck : Type := {
  cn_required : string;
  cn_excel_value : pyval;
  cn_pdf_value : pyval;
  cn_status : string
}.

(** [verification_results['purpose_of_shipment']]. *)
Record PurposeCheck : Type := {
  pos_required : string;
  pos_pdf_value : pyval;
  pos_status : string
}.

(** [self.verification_results]. A check that [__init__] leaves as the empty
    dictionary is [None]; of ['line_items'] the report reads ['summary']
    only. *)
Record VerificationResults : Type := {
  timestamp : string;
  contact_check : option ContactCheck;
  purpose_check : option PurposeCheck;
  summary : option Results;
  excel_items : list LineItem;
  pdf_items : list LineItem
}.

Definition nl : string := String (ascii_of_nat 10) EmptyString.

Definition status_pass : string := "✓ PASS".
Definition status_fail : string := "✗ FAIL".

Definition required_contact : string := "SB-SHIPPING - PRN 5789187".
Definition required_purpose : string := "SB-SHIPPING - REPAIR_AND_RETURN".

Definition pass_banner : list string :=
  [ "╔═══════════════════════════════════════════════════════════════════════════════════════╗";
    "║  ✓✓✓ ALL VERIFICATION CHECKS PASSED ✓✓✓                                              ║";
    "║  Your invoice matches FedEx invoice perfectly on ALL 7 FIELDS!                       ║";
    "║  ✓ Quantity ✓ Weight ✓ Description ✓ HS Code ✓ Country ✓ Year ✓ Unit Value ✓ Total ║";
    "╚═══════════════════════════════════════════════════════════════════════════════════════╝" ].

Definition fail_banner : list string :=
  [ "╔═══════════════════════════════════════════════════════════════════════════════════════╗";
    "║  ✗✗✗ VERIFICATION FAILED - DISCREPANCIES FOUND ✗✗✗                                   ║";
    "║  Please review the detailed discrepancies above.                                     ║";
    "║  Check: Quantity, Weight, Description, HS Code, Country, Year, Unit Value, Total     ║";
    "╚═══════════════════════════════════════════════════════════════════════════════════════╝" ].

Local Infix "+++" := app (at level 60, right associativity).

(** [for idx, x in enumerate(l, start)] with a body that appends lines and
    may raise. *)
Fixpoint blocks {A : Type} (f : nat -> A -> option (list string))
    (start : nat) (l : list A) : option (list string) :=
  match l with
  | [] => Some []
  | x :: r =>
      match f start x, blocks f (S start) r with
      | Some a, Some b => Some (a +++ b)
      | _, _ => None
      end
  end.

Section Report.
Context `{PyRuntime}.

(** [__init__]: [now] is the reading of the clock, already formatted. *)
Definition init (now : string) : VerificationResults :=
  {| timestamp := now;
     contact_check := None;
     purpose_check := None;
     summary := None;
     excel_items := [];
     pdf_items := [] |}.

(** [verify], after the two extractions. *)
Definition verify (vr : VerificationResults) (excel_data pdf_data : Extracted)
  : VerificationResults :=
  let contact_pass := Py.eq (contact_name pdf_data) (PStr required_contact) in
  let purpose_pass :=
    Py.eq (purpose_of_shipment pdf_data) (PStr required_purpose) in
  let comparison :=
    compare_line_items (line_items excel_data) (line_items pdf_data) in
  {| timestamp := timestamp vr;
     contact_check :=
       Some {| cn_required := required_contact;
               cn_excel_value := contact_name excel_data;
               cn_pdf_value := contact_name pdf_data;
               cn_status := if contact_pass then status_pass else status_fail |};
     purpose_check :=
       Some {| pos_required := required_purpose;
               pos_pdf_value := purpose_of_shipment pdf_data;
               pos_status := if purpose_pass then status_pass else status_fail |};
     summary := Some comparison;
     excel_items := line_items excel_data;
     pdf_items := line_items pdf_data |}.

(** [item.get('description')[:80]]: only a string can be sliced. *)
Definition description80 (item : LineItem) : option string :=
  match description item with
  | PStr s => Some (Py.take 80 s)
  | _ => None
  end.

(** The eight value lines printed for one line item. *)
Definition item_lines (item : LineItem) : option (list string) :=
  match description80 item with
  | Some d =>
      Some [ "  Quantity:     " ++ Py.str (quantity item);
             "  Net Weight:   " ++ Py.str (net_weight item) ++ " kg";
             "  Description:  " ++ d ++ "...";
             "  HS Code:      " ++ Py.str (hs_code item);
             "  Country:      " ++ Py.str (country_code item);
             "  Year:         " ++ Py.str (year item);
             "  Unit Value:   $" ++ Py.str (unit_value item);
             "  Total Value:  $" ++ Py.str (total_value item) ]
  | None => None
  end.

Definition mark (b : bool) (different : string) : string :=
  if b then "✓ Match" else different.

(** One block of the section on partial matches (lines 462-497). *)
Definition mismatch_lines (idx : nat) (m : Mismatch) : option (list string) :=
  match item_lines (excel_item m), item_lines (pdf_item m) with
  | Some ex, Some pd =>
      let diffs := differences m in
      Some ([ "Discrepancy #" ++ Py.str_of_nat idx ++ " - Match Score: "
                ++ match_score m;
              Py.repeat_str "-" 100;
              "YOUR EXCEL:" ]
            +++ ex
            +++ [ nl ++ "FEDEX PDF:" ]
            +++ pd
            +++ [ nl ++ "FIELD-BY-FIELD COMPARISON:";
                 "  Quantity:     " ++ mark (Diff.quantity diffs) "✗ DIFFERENT";
                 "  Net Weight:   " ++ mark (Diff.net_weight diffs) "✗ DIFFERENT";
                 "  Description:  " ++ mark (Diff.description diffs) "✗ DIFFERENT";
                 "  HS Code:      "
                   ++ mark (Diff.hs_code diffs) "✗ DIFFERENT (Should all be 970531)";
                 "  Country:      " ++ mark (Diff.country_code diffs) "✗ DIFFERENT";
                 "  Year:         " ++ mark (Diff.year diffs) "✗ DIFFERENT";
                 "  Unit Value:   " ++ mark (Diff.unit_value diffs) "✗ DIFFERENT";
                 "  Total Value:  " ++ mark (Diff.total_value diffs) "✗ DIFFERENT";
                 nl ])
  | _, _ => None
  end.

(** One block of a section on unmatched items (lines 505-515, 523-533). *)
Definition unmatched_lines (label : string) (idx : nat) (item : LineItem)
  : option (list string) :=
  match item_lines item with
  | Some l => Some ([ label ++ Py.str_of_nat idx ++ ":" ] +++ l +++ [ "" ])
  | None => None
  end.

(** A list is true when it is not empty. *)
Definition nonempty {A : Type} (l : list A) : bool :=
  match l with [] => false | _ => true end.

Definition mismatch_section (s : Results) : option (list string) :=
  if nonempty (mismatches s) then
    match blocks mismatch_lines 1 (mismatches s) with
    | Some b =>
        Some ([ Py.repeat_str "=" 100;
                "ITEMS WITH DISCREPANCIES (PARTIAL MATCHES)";
                Py.repeat_str "=" 100 ++ nl ] +++ b)
    | None => None
    end
  else Some [].

Definition unmatched_section (title label : string) (items : list LineItem)
  : option (list string) :=
  if nonempty items then
    match blocks (unmatched_lines label) 1 items with
    | Some b =>
        Some ([ Py.repeat_str "=" 100;
                title;
                Py.repeat_str "=" 100 ++ nl ] +++ b)
    | None => None
    end
  else Some [].

(** Lines 542-545. *)
Definition items_ok (s : Results) : bool :=
  Nat.eqb (perfect_matches s) (total_excel s)
  && Nat.eqb (length (mismatches s)) 0
  && Nat.eqb (length (unmatched_excel s)) 0
  && Nat.eqb (length (unmatched_pdf s)) 0.

Definition contact_ok (cn : ContactCheck) : bool :=
  String.eqb (cn_status cn) status_pass.

Definition purpose_ok (pos : PurposeCheck) : bool :=
  String.eqb (pos_status pos) status_pass.

(** Lines 553-564: the banner that closes the report. *)
Definition final_banner (cn : ContactCheck) (pos : PurposeCheck)
    (s : Results) : list string :=
  if contact_ok cn && purpose_ok pos && items_ok s
  then pass_banner else fail_banner.

(** Lines 418-453: title, time stamp, header checks and counters. *)
Definition head_lines (ts : string) (cn : ContactCheck) (pos : PurposeCheck)
    (s : Results) : list string :=
  [ Py.repeat_str "=" 100;
    "COMPREHENSIVE INVOICE VERIFICATION REPORT";
    "Checking: Quantity | Net Weight | Description | HS Code | Country | Year | Unit Value | Total Value";
    Py.repeat_str "=" 100;
    "Generated: " ++ ts ++ nl;
    Py.repeat_str "-" 100;
    "1. CONTACT NAME VERIFICATION";
    Py.repeat_str "-" 100;
    "Required: " ++ cn_required cn;
    "Your Excel: " ++ Py.str (cn_excel_value cn);
    "FedEx PDF:  " ++ Py.str (cn_pdf_value cn);
    "Result: " ++ cn_status cn ++ nl;
    Py.repeat_str "-" 100;
    "2. PURPOSE OF SHIPMENT VERIFICATION";
    Py.repeat_str "-" 100;
    "Required: " ++ pos_required pos;
    "FedEx PDF: " ++ Py.str (pos_pdf_value pos);
    "Result: " ++ pos_status pos ++ nl;
    Py.repeat_str "-" 100;
    "3. LINE ITEMS VERIFICATION - ALL 7 FIELDS";
    Py.repeat_str "-" 100;
    "Total in Excel:      " ++ Py.str_of_nat (total_excel s);
    "Total in PDF:        " ++ Py.str_of_nat (total_pdf s);
    "Perfect Matches:     " ++ Py.str_of_nat (perfect_matches s);
    "Partial Matches:     " ++ Py.str_of_nat (length (mismatches s));
    "Excel Only:          " ++ Py.str_of_nat (length (unmatched_excel s));
    "PDF Only:            " ++ Py.str_of_nat (length (unmatched_pdf s)) ++ nl ].

(** Lines 536-551: the summary that precedes the banner. *)
Definition final_summary_lines (cn : ContactCheck) (pos : PurposeCheck)
    (s : Results) : list string :=
  [ Py.repeat_str "=" 100;
    "FINAL VERIFICATION SUMMARY";
    Py.repeat_str "=" 100;
    "Contact Name:        " ++ cn_status cn;
    "Purpose of Shipment: " ++ pos_status pos;
    "All Line Items:      "
      ++ (if items_ok s then "✓ PASS - All 7 fields match perfectly"
          else "✗ FAIL - See discrepancies above");
    "Perfect Matches:     " ++ Py.str_of_nat (perfect_matches s) ++ "/"
      ++ Py.str_of_nat (total_excel s);
    "" ].

(** Lines 455-533: the three optional sections of details; [None] when a
    description is not text. *)
Definition detail_lines (s : Results) : option (list string) :=
  match mismatch_section s,
        unmatched_section
          ("ITEMS ONLY IN YOUR EXCEL ("
             ++ Py.str_of_nat (length (unmatched_excel s))
             ++ " items - NOT FOUND IN FEDEX PDF)")
          "Excel Item #" (unmatched_excel s),
        unmatched_section
          ("ITEMS ONLY IN FEDEX PDF ("
             ++ Py.str_of_nat (length (unmatched_pdf s))
             ++ " items - NOT FOUND IN YOUR EXCEL)")
          "FedEx PDF Item #" (unmatched_pdf s) with
  | Some mm, Some ue, Some up => Some (mm +++ ue +++ up)
  | _, _, _ => None
  end.

(** The list [lines] of [generate_report]; [None] when the method raises
    (a check or the summary not filled in, a description that is not
    text). *)
Definition report_lines (vr : VerificationResults) : option (list string) :=
  match contact_check vr, purpose_check vr, summary vr with
  | Some cn, Some pos, Some s =>
      match detail_lines s with
      | Some details =>
          Some (head_lines (timestamp vr) cn pos s
                +++ details
                +++ final_summary_lines cn pos s
                +++ final_banner cn pos s
                +++ [ "" ])
      | None => None
      end
  | _, _, _ => None
  end.

(** [generate_report]: the returned [report_text]. *)
Definition generate_report (vr : VerificationResults) : option string :=
  option_map Py.join_lines (report_lines vr).

(** A run of the tool: construction at clock reading [now], [verify] on
    the two extracted sources, then the report. *)
Definition run_report (now : string) (excel_data pdf_data : Extracted)
  : option string :=
  generate_report (verify (init now) excel_data pdf_data).

End Report.

(** ** Record guards of the extractors *)

Module Num.

(** [int(x)] of a float truncates towards zero. *)
Definition trunc (q : Q) : Z := Z.quot (Qnum q) (Zpos (Qden q)).

(** The integer nearest to [q], ties to the even one. *)
Definition round_half_even (q : Q) : Z :=
  let n := Qnum q in
  let d := Zpos (Qden q) in
  let f := (n / d)%Z in
  let r2 := (2 * (n mod d))%Z in
  if Z.ltb r2 d then f
  else if Z.ltb d r2 then (f + 1)%Z
  else if Z.even f then f else (f + 1)%Z.

(** [round(q, 6)]. *)
Definition round6 (q : Q) : Q :=
  Qmake (round_half_even (q * inject_Z 1000000)) 1000000.

Definition is_digit (c : ascii) : bool :=
  let n := nat_of_ascii c in (48 <=? n)%nat && (n <=? 57)%nat.

Fixpoint all_digits (s : string) : bool :=
  match s with
  | EmptyString => true
  | String c r => is_digit c && all_digits r
  end.

(** [s.isdigit()]. *)
Definition isdigit (s : string) : bool :=
  negb (String.eqb s "") && all_digits s.

End Num.

Section Extractors.
Context `{PyRuntime}.

(** [int(v)]; [None] stands for the raised exception. *)
Definition py_int (v : pyval) : option Z :=
  match v with
  | PNone => None
  | PInt z => Some z
  | PFloat q => Some (Num.trunc q)
  | PStr s => int_of_str s
  end.

(** [quantity > 0]; [None] when the operands cannot be ordered. *)
Definition gt_zero (v : pyval) : option bool :=
  match v with
  | PInt z => Some (Z.ltb 0 z)
  | PFloat q => Some (Py.Qltb 0 q)
  | _ => None
  end.

(** [conv(v) if v else None] with a conversion that may raise. *)
Definition when_truthy (conv : pyval -> option pyval) (v : pyval)
  : option pyval :=
  if Py.truthy v then conv v else Some PNone.

Definition to_float (v : pyval) : option pyval :=
  option_map PFloat (Py.float v).

Definition to_int (v : pyval) : option pyval :=
  option_map PInt (py_int v).

(** A row of the sheet is the list of its cells, an empty cell (for which
    [pd.notna] is false) being [PNone]; so [row[i] if pd.notna(row[i]) else
    None] is the cell itself. Columns 8 and 11 are read only when the row
    is long enough. *)
Definition guarded_cell (row : list pyval) (i : nat) : pyval :=
  if Nat.ltb i (length row) then default PNone (row !! i) else PNone.

(** Lines 66-72: the unit value; [None] when [quantity > 0] raises. *)
Definition excel_unit_value (total_value quantity : pyval) : option pyval :=
  if Py.truthy total_value && Py.truthy quantity then
    match gt_zero quantity with
    | Some true =>
        match Py.float total_value, Py.float quantity with
        | Some t, Some q => Some (PFloat (t / q))
        | _, _ => Some PNone
        end
    | Some false => Some PNone
    | None => None
    end
  else Some PNone.

(** Lines 56-85 for one row: [None] when the row raises, [Some None] when
    it is skipped, [Some (Some item)] when an item is appended. *)
Definition excel_row_item (row : list pyval) : option (option LineItem) :=
  rank ← row !! 0;
  quantity ← row !! 1;
  hs_code ← row !! 2;
  _ ← row !! 3;
  country_code ← row !! 4;
  year ← row !! 5;
  description ← row !! 6;
  let net_weight_kg := guarded_cell row 8 in
  let total_value := guarded_cell row 11 in
  unit_value ← excel_unit_value total_value quantity;
  if Py.truthy rank && Py.truthy quantity && Py.truthy description then
    rank' ← (if Num.isdigit (Py.remove_char "." (Py.str rank))
             then to_int rank else Some rank);
    quantity' ← to_float quantity;
    net_weight' ← when_truthy to_float net_weight_kg;
    year' ← when_truthy to_int year;
    total_value' ← when_truthy to_float total_value;
    Some (Some
      {| rank := Some rank';
         quantity := quantity';
         net_weight := net_weight';
         description := PStr (Py.strip (Py.str description));
         hs_code :=
           if Py.truthy hs_code
           then PStr (Py.remove_char "." (Py.str hs_code)) else PNone;
         country_code :=
           if Py.truthy country_code
           then PStr (Py.strip (Py.str country_code)) else PNone;
         year := year';
         unit_value :=
           match unit_value with
           | PFloat u => if Py.truthy unit_value then PFloat (Num.round6 u)
                         else PNone
           | _ => PNone
           end;
         total_value := total_value' |})
  else Some None.

(** The test that ends the item rows: [pd.notna(row[0]) and 'Total' in
    str(row[0])]. *)
Definition is_total_row (row : list pyval) : option bool :=
  c ← row !! 0;
  Some (negb (Py.is_none c) && Py.contains "Total" (Py.str c)).

(** Lines 44-85: the loop over the rows that follow the header row. *)
Fixpoint excel_item_rows (rows : list (list pyval)) : option (list LineItem) :=
  match rows with
  | [] => Some []
  | row :: rest =>
      stop ← is_total_row row;
      if (stop : bool) then Some []
      else
        it ← excel_row_item row;
        items ← excel_item_rows rest;
        Some (match it with Some i => i :: items | None => items end)
  end.

(** Lines 37-41: the rows that follow the first row whose first cell is
    ['Rank']; none when there is no such row. *)
Fixpoint rows_after_rank (df : list (list pyval)) : option (list (list pyval)) :=
  match df with
  | [] => Some []
  | row :: rest =>
      c ← row !! 0;
      if negb (Py.is_none c) && String.eqb (Py.strip (Py.str c)) "Rank"
      then Some rest else rows_after_rank rest
  end.

(** The line items of [extract_excel_data] for the sheet [df], given as the
    list of its rows. *)
Definition excel_line_items (df : list (list pyval)) : option (list LineItem) :=
  rows ← rows_after_rank df;
  excel_item_rows rows.

(** Lines 188-198: the document extractor appends the parsed fields of a
    line only when the key fields are true. *)
Definition pdf_append (items : list LineItem) (item : LineItem)
  : list LineItem :=
  if Py.truthy (quantity item) && Py.truthy (net_weight item)
     && Py.truthy (hs_code item) && Py.truthy (country_code item)
  then items ++ [item] else items.

End Extractors.

(** A number equal to zero. *)
Definition numeric_zero (v : pyval) : Prop :=
  v = PInt 0 \/ exists q, v = PFloat q /\ (q == 0)%Q.

(** ** A concrete interpreter for worked examples

    Plain decimal notation only: [float] and [int] read an unsigned
    [digits] or [digits.digits], and a float prints with at least one and
    at most sixteen fractional digits. *)

Module DecimalRuntime.

Definition digit_of (c : ascii) : option Z :=
  let n := nat_of_ascii c in
  if (48 <=? n)%nat && (n <=? 57)%nat then Some (Z.of_nat (n - 48)) else None.

(** Value and length of a run of digits; [None] on any other character. *)
Fixpoint read_digits (s : string) (acc : Z) (len : nat) : option (Z * nat) :=
  match s with
  | EmptyString => Some (acc, len)
  | String c r =>
      match digit_of c with
      | Some d => read_digits r (10 * acc + d) (S len)
      | None => None
      end
  end.

Fixpoint split_dot (s : string) : string * option string :=
  match s with
  | EmptyString => (EmptyString, None)
  | String c r =>
      if Ascii.eqb c "." then (EmptyString, Some r)
      else let '(a, b) := split_dot r in (String c a, b)
  end.

Definition parse_int (s : string) : option Z :=
  match read_digits s 0 0 with
  | Some (v, S _) => Some v
  | _ => None
  end.

Definition parse_float (s : string) : option Q :=
  match split_dot s with
  | (a, None) => option_map inject_Z (parse_int a)
  | (a, Some b) =>
      match read_digits a 0 0, read_digits b 0 0 with
      | Some (va, la), Some (vb, lb) =>
          if Nat.eqb (la + lb) 0 then None
          else Some (Qmake (va * 10 ^ Z.of_nat lb + vb)
                           (Z.to_pos (10 ^ Z.of_nat lb)))
      | _, _ => None
      end
  end.

(** The fractional digits of [num / den], [num < den], without trailing
    zeros. *)
Fixpoint frac_digits (fuel : nat) (num den : Z) : string :=
  match fuel with
  | O => EmptyString
  | S fuel' =>
      if Z.eqb num 0 then EmptyString
      else String (Py.digit_char (Z.to_nat (10 * num / den)))
                  (frac_digits fuel' ((10 * num) mod den) den)
  end.

Definition print_float (q : Q) : string :=
  let n := Z.abs (Qnum q) in
  let d := Zpos (Qden q) in
  let frac := frac_digits 16 (n mod d) d in
  (if Z.ltb (Qnum q) 0 then "-" else "")
  ++ Py.str_of_nat (Z.to_nat (n / d)) ++ "."
  ++ (if String.eqb frac "" then "0" else frac).

#[export] Instance runtime : PyRuntime :=
  {| float_of_str := parse_float;
     int_of_str := parse_int;
     repr_float := print_float |}.

End DecimalRuntime.

(** ** Sample data: the scenarios of the specification *)

Module Sample.

(** [{qty, weight: 1.0, desc, hs: "970531", country: "GB", year: 1990,
    unit: 5, total}]. *)
Definition item (qty : Z) (desc : string) (total : Z) : LineItem :=
  {| rank := None;
     quantity := PFloat (inject_Z qty);
     net_weight := PFloat (inject_Z 1);
     description := PStr desc;
     hs_code := PStr "970531";
     country_code := PStr "GB";
     year := PInt 1990;
     unit_value := PFloat (inject_Z 5);
     total_value := PFloat (inject_Z total) |}.

Definition coin : LineItem := item 10 "coin" 50.

(** The same line with a total of 55. *)
Definition coin55 : LineItem := item 10 "coin" 55.

(** An unrelated line: no field but the tariff code, the country and the
    year agrees with [coin]. *)
Definition note : LineItem :=
  {| rank := None;
     quantity := PFloat (inject_Z 3);
     net_weight := PFloat (inject_Z 7);
     description := PStr "bank note";
     hs_code := PStr "970531";
     country_code := PStr "GB";
     year := PInt 1990;
     unit_value := PFloat (inject_Z 2);
     total_value := PFloat (inject_Z 6) |}.

(** A sheet with the header row and one item row; [qty] is the quantity
    cell. *)
Definition sheet (qty : pyval) : list (list pyval) :=
  [ [ PStr "Rank"; PStr "Quantity"; PStr "HTS Code"; PStr "Country";
      PStr "Country Code"; PStr "Year"; PStr "Description"; PStr "Material";
      PStr "Weight (kgs)"; PStr "Weight (gms)"; PStr "Weight (Lbs)";
      PStr "Value (US $)" ];
    [ PInt 1; qty; PStr "9705.31"; PStr "United Kingdom"; PStr "GB";
      PInt 1990; PStr "coin"; PStr "silver"; PFloat (inject_Z 1); PNone; PNone;
      PFloat (inject_Z 50) ];
    [ PStr "Total"; PNone; PNone; PNone; PNone; PNone; PNone; PNone; PNone;
      PNone; PNone; PFloat (inject_Z 50) ] ].

(** The fields parsed from a document line whose quantity reads [0.00]. *)
Definition zero_quantity_line : LineItem :=
  {| rank := None;
     quantity := PFloat (inject_Z 0);
     net_weight := PFloat (inject_Z 1);
     description := PStr "Collectors coin";
     hs_code := PStr "970531";
     country_code := PStr "GB";
     year := PNone;
     unit_value := PFloat (inject_Z 5);
     total_value := PFloat (inject_Z 0) |}.

(** Two extracted sources that agree, with the accepted header values. *)
Definition excel_source : Extracted :=
  {| contact_name := PStr "SB-SHIPPING - PRN 5789187";
     purpose_of_shipment := PNone;
     line_items := [coin] |}.

Definition pdf_source : Extracted :=
  {| contact_name := PStr "SB-SHIPPING - PRN 5789187";
     purpose_of_shipment := PStr "SB-SHIPPING - REPAIR_AND_RETURN";
     line_items := [coin] |}.

End Sample.

(** ** Vocabulary of the further properties *)

(** A string in the form [normalize_description] produces: no upper-case
    letter, no white space but single blanks, and none of these at either
    end. [prev_space] tells that a blank may not come next. *)
Fixpoint normal_from (prev_space : bool) (s : string) : bool :=
  match s with
  | EmptyString => negb prev_space
  | String c r =>
      if Py.is_space c
      then negb prev_space && Ascii.eqb c " " && normal_from true r
      else Ascii.eqb (Py.lower_char c) c && normal_from false r
  end.

Definition normal_form (s : string) : Prop :=
  s = "" \/ normal_from true s = true.

(** The head of a string, when it has one, is not white space. *)
Definition head_not_space (s : string) : Prop :=
  match s with
  | EmptyString => True
  | String c _ => Py.is_space c = false
  end.

(** The values on which [compare_values] works with finite numbers only: a
    null, an integer, or a float, which the embedding takes finite. A text
    is left out: [float] reads the texts [inf] and [nan] as an infinity and
    as not-a-number, and for these [abs(a - b) < tolerance] is false even
    when the two sides are the same value. *)
Definition null_or_number (v : pyval) : bool :=
  match v with
  | PStr _ => false
  | _ => true
  end.

(** The four fields of a line item that [compare_line_items] gives to
    [compare_values] are nulls or finite numbers. *)
Definition finite_fields (item : LineItem) : bool :=
  null_or_number (quantity item) && null_or_number (net_weight item)
  && null_or_number (unit_value item) && null_or_number (total_value item).

(** The description of the item is text, so that it can be sliced. *)
Definition has_text (item : LineItem) : bool :=
  match description item with
  | PStr _ => true
  | _ => false
  end.

(** The line items whose values [generate_report] prints: both sides of
    every partial match and the unmatched items of the two sides. *)
Definition printed_items (s : Results) : list LineItem :=
  (excel_item <$> mismatches s) ++ (pdf_item <$> mismatches s)
  ++ unmatched_excel s ++ unmatched_pdf s.

(** streamlit_app.py, lines 201-209: the verdict [overall_pass] the
    dashboard computes from the dictionary returned by [verify]; [None]
    when a key it reads is missing. *)
Definition overall_pass (vr : VerificationResults) : option bool :=
  match contact_check vr, purpose_check vr, summary vr with
  | Some cn, Some pos, Some s =>
      Some (contact_ok cn && purpose_ok pos && items_ok s)
  | _, _, _ => None
  end.

(** The test of the header search (line 39): the first cell of the row is
    not empty and reads ['Rank'] once stripped; [None] when the row has no
    first cell. *)
Definition is_rank_row `{PyRuntime} (row : list pyval) : option bool :=
  c ← row !! 0;
  Some (negb (Py.is_none c) && String.eqb (Py.strip (Py.str c)) "Rank").

(** The value is null or a float, null or an integer, null or a text. *)
Definition none_or_float (v : pyval) : Prop :=
  v = PNone \/ exists q, v = PFloat q.

Definition none_or_int (v : pyval) : Prop :=
  v = PNone \/ exists z, v = PInt z.

(** The shape of a line item built by the tabular extractor. *)
Record excel_shaped (item : LineItem) : Prop := {
  shaped_rank : rank item <> None;
  shaped_quantity : exists q, quantity item = PFloat q;
  shaped_net_weight : none_or_float (net_weight item);
  shaped_description : has_text item = true;
  shaped_hs_code :
    hs_code item = PNone
    \/ exists s, hs_code item = PStr s /\ Py.contains "." s = false;
  shaped_country_code :
    country_code item = PNone \/ exists s, country_code item = PStr s;
  shaped_year : none_or_int (year item);
  shaped_unit_value : none_or_float (unit_value item);
  shaped_total_value : none_or_float (total_value item)
}.

(** ** Header values of the document extractor *)

(** The longest run of digits that opens the string. *)
Fixpoint take_digits (s : string) : string :=
  match s with
  | EmptyString => EmptyString
  | String c r => if Num.is_digit c then String c (take_digits r) else EmptyString
  end.

(** [s[n:]]. *)
Fixpoint drop_chars (n : nat) (s : string) : string :=
  match n, s with
  | S n', String _ r => drop_chars n' r
  | _, _ => s
  end.

Definition prn_prefix : string := "SB-SHIPPING - PRN ".

(** [re.search(r'(SB-SHIPPING - PRN \d+)', s)]: group 1 of the leftmost
    match, its run of digits as long as possible. *)
Definition match_prn_here (s : string) : option string :=
  if String.prefix prn_prefix s
  then let digits := take_digits (drop_chars (String.length prn_prefix) s) in
       if String.eqb digits "" then None else Some (prn_prefix ++ digits)
  else None.

Fixpoint search_prn (s : string) : option string :=
  match match_prn_here s with
  | Some m => Some m
  | None =>
      match s with
      | EmptyString => None
      | String _ r => search_prn r
      end
  end.

(** Lines 200-208: the contact name read from the text of the document. *)
Definition pdf_contact_name (all_text : string) : pyval :=
  let found :=
    if Py.contains "SB-SHIPPING - PRN" all_text then
      match search_prn all_text with
      | Some m => PStr (Py.strip m)
      | None => PNone
      end
    else PNone in
  if negb (Py.truthy found) && Py.contains "HK SB-SHIPPING" all_text
  then PStr "HK SB-SHIPPING" else found.

(** Lines 210-212: the purpose read from the text of the document. *)
Definition pdf_purpose (all_text : string) : pyval :=
  if Py.contains "REPAIR_AND_RETURN" all_text && Py.contains "SB-SHIPPING" all_text
  then PStr "SB-SHIPPING - REPAIR_AND_RETURN" else PNone.

(** ** Sample rows of a sheet *)

Module SampleRow.

Definition title_row : list pyval := [PStr "Commercial invoice"].

Definition header_row : list pyval :=
  [ PStr "Rank"; PStr "Quantity"; PStr "HTS Code"; PStr "Country";
    PStr "Country Code"; PStr "Year"; PStr "Description"; PStr "Material";
    PStr "Weight (kgs)"; PStr "Weight (gms)"; PStr "Weight (Lbs)";
    PStr "Value (US $)" ].

(** Three pieces for a total of 10. *)
Definition item_row : list pyval :=
  [ PInt 1; PInt 3; PStr "9705.31"; PStr "United Kingdom"; PStr " GB ";
    PInt 1990; PStr "coin"; PStr "silver"; PFloat (inject_Z 1); PNone; PNone;
    PFloat (inject_Z 10) ].

Definition total_row : list pyval :=
  [ PStr "Total"; PNone; PNone; PNone; PNone; PNone; PNone; PNone; PNone;
    PNone; PNone; PFloat (inject_Z 10) ].

Definition note_row : list pyval := [PStr "Signature"; PStr "J. Doe"].

(** The line item built from [item_row]. *)
Definition item : LineItem :=
  {| rank := Some (PInt 1);
     quantity := PFloat (inject_Z 3);
     net_weight := PFloat (inject_Z 1);
     description := PStr "coin";
     hs_code := PStr "970531";
     country_code := PStr "GB";
     year := PInt 1990;
     unit_value := PFloat (Qmake 3333333 1000000);
     total_value := PFloat (inject_Z 10) |}.

(** The same row with a blank typed after the tariff code: the cell reads
    ['9705.31 ']. *)
Definition padded_row : list pyval :=
  [ PInt 1; PInt 3; PStr "9705.31 "; PStr "United Kingdom"; PStr " GB ";
    PInt 1990; PStr "coin"; PStr "silver"; PFloat (inject_Z 1); PNone; PNone;
    PFloat (inject_Z 10) ].

(** The line item built from [padded_row]. *)
Definition padded_item : LineItem :=
  {| rank := Some (PInt 1);
     quantity := PFloat (inject_Z 3);
     net_weight := PFloat (inject_Z 1);
     description := PStr "coin";
     hs_code := PStr "970531 ";
     country_code := PStr "GB";
     year := PInt 1990;
     unit_value := PFloat (Qmake 3333333 1000000);
     total_value := PFloat (inject_Z 10) |}.

(** The fields parsed from the document line
    [3.00 1.00 PCS Collectors coin 970531 GB 3.333333 10.00] followed by the
    line [Coin 1990]. *)
Definition document_item : LineItem :=
  {| rank := None;
     quantity := PFloat (inject_Z 3);
     net_weight := PFloat (inject_Z 1);
     description := PStr "Collectors coin Coin 1990";
     hs_code := PStr "970531";
     country_code := PStr "GB";
     year := PInt 1990;
     unit_value := PFloat (Qmake 3333333 1000000);
     total_value := PFloat (inject_Z 10) |}.

End SampleRow.

(** * Properties *)

Local Open Scope list_scope.

Example parse_float_5_005 :
  Qeq_bool (default (0 # 1)%Q (DecimalRuntime.parse_float "5.005")) (5005 # 1000)%Q = true.
Proof. reflexivity. Qed.

Example print_float_half :
  DecimalRuntime.print_float (5005 # 1000)%Q = "5.005"
  /\ DecimalRuntime.print_float (inject_Z 5) = "5.0"
  /\ Py.str_of_Z 1990 = "1990" /\ Py.str_of_Z (-12) = "-12" /\ Py.str_of_nat 0 = "0".
Proof. repeat split; reflexivity. Qed.

Example normalize_example :
  @normalize_description DecimalRuntime.runtime (PStr "  Collectors   Note 1990 ")
  = "collectors note 1990".
Proof. reflexivity. Qed.

(** ** The comparators *)

Lemma Qltb_lt (x y : Q) : Py.Qltb x y = true <-> (x < y)%Q.
Proof.
  unfold Py.Qltb. rewrite negb_true_iff. split.
  - intros Hle. apply Qnot_le_lt. intros Hyx.
    apply Qle_bool_iff in Hyx. congruence.
  - intros Hlt. destruct (Qle_bool y x) eqn:E; [|reflexivity].
    apply Qle_bool_iff in E. exfalso. exact (Qlt_not_le _ _ Hlt E).
Qed.

Lemma Qabs_diff_swap (x y : Q) : (Qabs (x - y) == Qabs (y - x))%Q.
Proof.
  rewrite <- (Qabs_opp (x - y)).
  apply Qabs_wd. ring.
Qed.

Lemma Qltb_abs_swap (x y t : Q) :
  Py.Qltb (Qabs (x - y)) t = Py.Qltb (Qabs (y - x)) t.
Proof.
  unfold Py.Qltb. f_equal.
  apply Qleb_comp; [reflexivity | apply Qabs_diff_swap].
Qed.

Lemma float_none_inv `{PyRuntime} (v : pyval) (x : Q) :
  Py.float v = Some x -> Py.is_none v = false.
Proof. destruct v; simpl; congruence. Qed.

Lemma contains_empty (s : string) : Py.contains "" s = true.
Proof. destruct s; reflexivity. Qed.

Lemma normalize_none `{PyRuntime} : normalize_description PNone = "".
Proof. reflexivity. Qed.

Lemma normalize_falsy `{PyRuntime} (v : pyval) :
  Py.truthy v = false -> normalize_description v = "".
Proof. intros E. unfold normalize_description. now rewrite E. Qed.


(** C9: when one of the two descriptions is null, or normalises to the empty
    string, the description test of the matcher is true, whatever the other
    description is. *)
Theorem desc_match_empty `{PyRuntime} (a b : pyval) :
  a = PNone \/ b = PNone
  \/ normalize_description a = "" \/ normalize_description b = "" ->
  desc_match a b = true.
Proof.
  intros Hcase. unfold desc_match.
  assert (normalize_description a = "" \/ normalize_description b = "") as [E | E].
  { destruct Hcase as [-> | [-> | [E | E]]]; auto using normalize_none. }
  - rewrite E, contains_empty. reflexivity.
  - rewrite E, contains_empty. apply orb_true_r.
Qed.

Lemma desc_match_empty_witness :
  @desc_match DecimalRuntime.runtime (PStr "   ") (PStr "Collectors Note 1990")
  = true.
Proof.
  apply (@desc_match_empty DecimalRuntime.runtime).
  right. right. left. reflexivity.
Defined.

(** C10: both comparators are symmetric: swapping the two arguments changes
    neither the result of [compare_values] nor that of the description
    test. *)
Theorem comparators_symmetric `{PyRuntime} (a b : pyval) (t : Q) :
  compare_values a b t = compare_values b a t
  /\ desc_match a b = desc_match b a.
Proof.
  split.
  - unfold compare_values.
    rewrite (andb_comm (Py.is_none a)), (orb_comm (Py.is_none a)).
    destruct (Py.is_none b && Py.is_none a); [reflexivity|].
    destruct (Py.is_none b || Py.is_none a); [reflexivity|].
    destruct (Py.float a) as [x|], (Py.float b) as [y|];
      auto using Qltb_abs_swap, String.eqb_sym.
  - unfold desc_match. apply orb_comm.
Qed.

(** ** Enumerations *)

Lemma enumerate_from_app {A : Type} (n : nat) (a b : list A) :
  enumerate_from n (a ++ b)
  = enumerate_from n a ++ enumerate_from (n + length a) b.
Proof.
  revert n. induction a as [|x a IH]; intros n; simpl.
  - now rewrite Nat.add_0_r.
  - rewrite IH. do 3 f_equal. lia.
Qed.

Lemma enumerate_from_fst {A : Type} (n : nat) (l : list A) :
  map fst (enumerate_from n l) = seq n (length l).
Proof.
  revert n. induction l as [|x l IH]; intros n; simpl; [reflexivity|].
  now rewrite IH.
Qed.

Lemma enumerate_from_snd {A : Type} (n : nat) (l : list A) :
  map snd (enumerate_from n l) = l.
Proof.
  revert n. induction l as [|x l IH]; intros n; simpl; [reflexivity|].
  now rewrite IH.
Qed.

Lemma enumerate_from_elem {A : Type} (n : nat) (l : list A) (j : nat) (x : A) :
  (j, x) ∈ enumerate_from n l <-> n <= j /\ l !! (j - n) = Some x.
Proof.
  revert n. induction l as [|y l IH]; intros n; simpl.
  - rewrite elem_of_nil. split; [tauto | intros [_ E]; discriminate].
  - rewrite elem_of_cons, IH. split.
    + intros [E | [Hle E]].
      * inversion E; subst. split; [lia|]. now rewrite Nat.sub_diag.
      * split; [lia|]. replace (j - n) with (S (j - S n)) by lia. exact E.
    + intros [Hle E]. destruct (decide (j = n)) as [-> | Hne].
      * left. rewrite Nat.sub_diag in E. simpl in E. congruence.
      * right. split; [lia|].
        replace (j - n) with (S (j - S n)) in E by lia. exact E.
Qed.

Lemma enumerate_elem {A : Type} (l : list A) (j : nat) (x : A) :
  (j, x) ∈ enumerate l <-> l !! j = Some x.
Proof.
  unfold enumerate. rewrite enumerate_from_elem, Nat.sub_0_r.
  split; [tauto | intros E; split; [lia | exact E]].
Qed.

(** The enumeration cut at a position that holds [x]. *)
Lemma enumerate_split {A : Type} (l : list A) (j : nat) (x : A) :
  l !! j = Some x ->
  enumerate l
  = enumerate (take j l) ++ (j, x) :: enumerate_from (S j) (drop (S j) l).
Proof.
  intros E. unfold enumerate.
  rewrite <- (take_drop_middle l j x E) at 1.
  rewrite enumerate_from_app. simpl. do 2 f_equal.
  - pose proof (lookup_lt_Some _ _ _ E). rewrite length_take. f_equal. lia.
  - f_equal. pose proof (lookup_lt_Some _ _ _ E). rewrite length_take. lia.
Qed.

Lemma enumerate_from_lookup {A : Type} (n : nat) (l : list A) (i : nat) (x : A) :
  l !! i = Some x -> enumerate_from n l !! i = Some (n + i, x).
Proof.
  revert n i. induction l as [|y l IH]; intros n i E; [discriminate|].
  destruct i as [|i]; simpl in *.
  - inversion E; subst. now rewrite Nat.add_0_r.
  - rewrite (IH (S n) i E). do 2 f_equal. lia.
Qed.

Lemma enumerate_take_S {A : Type} (l : list A) (i : nat) (x : A) :
  l !! i = Some x ->
  firstn (S i) (enumerate l) = firstn i (enumerate l) ++ [(i, x)].
Proof.
  intros E. apply take_S_r. exact (enumerate_from_lookup 0 l i x E).
Qed.

Lemma enumerate_take_all {A : Type} (l : list A) :
  firstn (length l) (enumerate l) = enumerate l.
Proof.
  apply firstn_all2. unfold enumerate.
  rewrite <- (length_map fst), enumerate_from_fst, length_seq. lia.
Qed.

(** ** The inner loop *)

Section InnerLoop.
Context `{PyRuntime}.

Lemma bump_le (b : bool) (s : nat) : bump b s <= s + 1.
Proof. destruct b; simpl; lia. Qed.

Lemma score_of_le_8 (d : Diff.t) : score_of d <= 8.
Proof.
  unfold score_of.
  repeat match goal with
         | |- context [bump ?b ?s] =>
             lazymatch s with
             | context [bump] => fail
             | _ => pose proof (bump_le b s); generalize dependent (bump b s); intros
             end
         end.
  lia.
Qed.

Lemma score_le_8 (e p : LineItem) : score e p <= 8.
Proof. apply score_of_le_8. Qed.

Lemma track_best_cons (e : LineItem) (M : gset nat) (j : nat) (p : LineItem)
    (rest : list (nat * LineItem)) (best : Best) :
  track_best e M ((j, p) :: rest) best
  = if decide (j ∈ M) then track_best e M rest best
    else if Nat.ltb (best_match_score best) (score e p) && Nat.leb 4 (score e p)
    then track_best e M rest
           {| best_match_score := score e p;
              best_match := Some (p, j, field_agreement e p) |}
    else track_best e M rest best.
Proof. reflexivity. Qed.

Lemma scan_pdf_cons (i : nat) (e : LineItem) (j : nat) (p : LineItem)
    (rest : list (nat * LineItem)) (st : MatcherState) (best : Best) :
  scan_pdf i e ((j, p) :: rest) st best
  = if decide (j ∈ matched_pdf_indices st) then scan_pdf i e rest st best
    else if Nat.eqb (score e p) 8 then (claim_perfect st i j, best)
    else if Nat.ltb (best_match_score best) (score e p) && Nat.leb 4 (score e p)
    then scan_pdf i e rest st
           {| best_match_score := score e p;
              best_match := Some (p, j, field_agreement e p) |}
    else scan_pdf i e rest st best.
Proof. reflexivity. Qed.


(** Candidates that do not beat the current best leave it as it is. *)
Lemma track_best_keep (e : LineItem) (M : gset nat)
    (cands : list (nat * LineItem)) (best : Best) :
  (forall j p, (j, p) ∈ cands -> j ∉ M ->
     score e p <= best_match_score best \/ score e p < 4) ->
  track_best e M cands best = best.
Proof.
  induction cands as [|[j p] cands IH]; intros Hlow; [reflexivity|].
  assert (track_best e M cands best = best) as Hrest.
  { apply IH. intros j' p' Hin. apply Hlow. now apply elem_of_cons; right. }
  rewrite track_best_cons.
  destruct (decide (j ∈ M)) as [|Hfree]; [exact Hrest|].
  specialize (Hlow j p (list_elem_of_here _ _) Hfree).
  destruct (Nat.ltb_spec (best_match_score best) (score e p));
    destruct (Nat.leb_spec 4 (score e p)); simpl; try exact Hrest; lia.
Qed.



(** Without a candidate of score 8 the inner loop runs to its end and
    changes only the best-candidate locals. *)
Lemma scan_pdf_no_perfect (i : nat) (e : LineItem)
    (cands : list (nat * LineItem)) (st : MatcherState) (best : Best) :
  (forall j p, (j, p) ∈ cands -> j ∉ matched_pdf_indices st -> score e p <> 8) ->
  scan_pdf i e cands st best
  = (st, track_best e (matched_pdf_indices st) cands best).
Proof.
  revert best. induction cands as [|[j p] cands IH]; intros best Hno;
    [reflexivity|].
  assert (forall j' p', (j', p') ∈ cands -> j' ∉ matched_pdf_indices st ->
            score e p' <> 8) as Hrest.
  { intros j' p' Hin. apply Hno. now apply elem_of_cons; right. }
  rewrite scan_pdf_cons, track_best_cons.
  destruct (decide (j ∈ matched_pdf_indices st)) as [|Hfree]; [now apply IH|].
  specialize (Hno j p (list_elem_of_here _ _) Hfree).
  destruct (Nat.eqb_spec (score e p) 8); [contradiction|].
  destruct (_ && _); now apply IH.
Qed.

(** The first candidate of score 8 is claimed and ends the inner loop. *)
Lemma scan_pdf_first_perfect (i : nat) (e : LineItem)
    (pre post : list (nat * LineItem)) (j : nat) (p : LineItem)
    (st : MatcherState) (best : Best) :
  (forall j' p', (j', p') ∈ pre -> j' ∉ matched_pdf_indices st ->
     score e p' <> 8) ->
  j ∉ matched_pdf_indices st -> score e p = 8 ->
  scan_pdf i e (pre ++ (j, p) :: post) st best
  = (claim_perfect st i j, track_best e (matched_pdf_indices st) pre best).
Proof.
  revert best. induction pre as [|[j' p'] pre IH]; intros best Hpre Hfree H8.
  - rewrite app_nil_l, scan_pdf_cons.
    destruct (decide (j ∈ matched_pdf_indices st)); [contradiction|].
    now rewrite H8.
  - assert (forall j2 p2, (j2, p2) ∈ pre -> j2 ∉ matched_pdf_indices st ->
              score e p2 <> 8) as Hrest.
    { intros j2 p2 Hin. apply Hpre. now apply elem_of_cons; right. }
    rewrite <- app_comm_cons, scan_pdf_cons, track_best_cons.
    destruct (decide (j' ∈ matched_pdf_indices st)) as [|Hf]; [now apply IH|].
    specialize (Hpre j' p' (list_elem_of_here _ _) Hf).
    destruct (Nat.eqb_spec (score e p') 8); [contradiction|].
    destruct (_ && _); now apply IH.
Qed.

(** A list of candidates either holds no unclaimed candidate of score 8 or
    splits at the first one. *)
Lemma first_perfect_cases (e : LineItem) (M : gset nat)
    (cands : list (nat * LineItem)) :
  (forall j p, (j, p) ∈ cands -> j ∉ M -> score e p <> 8)
  \/ (exists pre j p post,
        cands = pre ++ (j, p) :: post
        /\ (forall j' p', (j', p') ∈ pre -> j' ∉ M -> score e p' <> 8)
        /\ (j ∉ M) /\ score e p = 8).
Proof.
  induction cands as [|[j p] cands IH].
  - left. intros j p Hin. now apply elem_of_nil in Hin.
  - destruct (decide ((j ∉ M) /\ score e p = 8)) as [[Hf H8] | Hnot].
    + right. exists [], j, p, cands. repeat split; auto.
      intros j' p' Hin. now apply elem_of_nil in Hin.
    + assert (j ∉ M -> score e p <> 8) as Hhead by tauto.
      destruct IH as [Hno | (pre & j' & p' & post & -> & Hpre & Hf & H8)].
      * left. intros j' p' Hin. apply elem_of_cons in Hin as [E | Hin].
        -- inversion E; subst. exact Hhead.
        -- now apply Hno.
      * right. exists ((j, p) :: pre), j', p', post. repeat split; auto.
        intros j2 p2 Hin. apply elem_of_cons in Hin as [E | Hin].
        -- inversion E; subst. exact Hhead.
        -- now apply Hpre.
Qed.

End InnerLoop.

(** ** One iteration of the outer loop *)

Section OuterStep.
Context `{PyRuntime}.

Lemma score_below_8 (e p : LineItem) : score e p <> 8 -> score e p <= 7.
Proof. pose proof (score_le_8 e p). lia. Qed.

(** The inner loop either claims a candidate of score 8 or leaves the state
    alone and keeps well-formed best-candidate locals. *)
Lemma scan_pdf_outcome (i : nat) (e : LineItem) (pdf_items : list LineItem)
    (cands : list (nat * LineItem)) (st : MatcherState) (best : Best) :
  (forall j p, (j, p) ∈ cands -> pdf_items !! j = Some p) ->
  best_ok e (matched_pdf_indices st) pdf_items best ->
  exists b,
    (scan_pdf i e cands st best = (st, b)
     /\ best_ok e (matched_pdf_indices st) pdf_items b)
    \/ (exists j p,
          scan_pdf i e cands st best = (claim_perfect st i j, b)
          /\ candidate (matched_pdf_indices st) pdf_items j p
          /\ score e p = 8).
Proof.
  revert best. induction cands as [|[j p] cands IH]; intros best Hlook Hok.
  - exists best. left. split; [reflexivity | exact Hok].
  - assert (forall j' p', (j', p') ∈ cands -> pdf_items !! j' = Some p') as Hrest.
    { intros j' p' Hin. apply Hlook. now apply elem_of_cons; right. }
    specialize (Hlook j p (list_elem_of_here _ _)).
    rewrite scan_pdf_cons.
    destruct (decide (j ∈ matched_pdf_indices st)) as [|Hfree]; [now apply IH|].
    destruct (Nat.eqb_spec (score e p) 8) as [H8 | Hn8].
    + exists best. right. exists j, p. repeat split; auto.
    + destruct (Nat.ltb_spec (best_match_score best) (score e p));
        destruct (Nat.leb_spec 4 (score e p)); simpl; try now apply IH.
      apply IH; [exact Hrest|]. unfold best_ok. simpl.
      pose proof (score_below_8 e p Hn8). repeat split; auto.
Qed.

(** The three ways an iteration of the outer loop can end. *)
Lemma match_excel_item_cases (pdf_items : list LineItem) (st : MatcherState)
    (i : nat) (e : LineItem) :
  i ∉ matched_excel_indices st ->
  (exists j p, candidate (matched_pdf_indices st) pdf_items j p
     /\ score e p = 8
     /\ match_excel_item pdf_items st (i, e) = claim_perfect st i j)
  \/ (exists j p, candidate (matched_pdf_indices st) pdf_items j p
        /\ 4 <= score e p <= 7
        /\ match_excel_item pdf_items st (i, e)
           = record_partial st i e (score e p) p j (field_agreement e p))
  \/ match_excel_item pdf_items st (i, e) = st.
Proof.
  intros Hi. unfold match_excel_item.
  destruct (scan_pdf_outcome i e pdf_items (enumerate pdf_items) st init_best)
    as [b [[-> Hok] | (j & p & -> & Hc & H8)]].
  - intros j p Hin. now apply enumerate_elem.
  - exact I.
  - destruct (decide (i ∈ matched_excel_indices st)); [contradiction|].
    unfold best_ok in Hok. destruct (best_match b) as [[[p j] d]|]; [|now right; right].
    destruct Hok as (Hc & -> & -> & Hs).
    right. left. exists j, p. auto.
  - left. exists j, p. repeat split; try apply Hc; auto.
    destruct (decide (i ∈ matched_excel_indices (claim_perfect st i j)))
      as [|Hout]; [reflexivity|].
    exfalso. apply Hout. simpl. apply elem_of_union_r, elem_of_singleton.
    reflexivity.
Qed.

(** The ghost fields steer nothing: two states with the same source locals
    go through the inner loop, and through an iteration of the outer loop,
    to states with the same source locals. *)
Lemma scan_pdf_visible (i : nat) (e : LineItem) (cands : list (nat * LineItem))
    (st1 st2 : MatcherState) (best : Best) :
  visible st1 = visible st2 ->
  visible (scan_pdf i e cands st1 best).1 = visible (scan_pdf i e cands st2 best).1
  /\ (scan_pdf i e cands st1 best).2 = (scan_pdf i e cands st2 best).2.
Proof.
  intros Hvis. revert best.
  induction cands as [|[j p] cands IH]; intros best; [now split|].
  rewrite !scan_pdf_cons.
  assert (matched_pdf_indices st1 = matched_pdf_indices st2) as Hpdf
    by (unfold visible in Hvis; congruence).
  rewrite Hpdf.
  destruct (decide (j ∈ matched_pdf_indices st2)); [apply IH|].
  destruct (Nat.eqb (score e p) 8).
  - split; [|reflexivity]. unfold visible in *. simpl.
    injection Hvis as -> -> ->. reflexivity.
  - destruct (_ && _); apply IH.
Qed.

Lemma match_excel_item_visible (pdf_items : list LineItem)
    (st1 st2 : MatcherState) (ie : nat * LineItem) :
  visible st1 = visible st2 ->
  visible (match_excel_item pdf_items st1 ie)
  = visible (match_excel_item pdf_items st2 ie).
Proof.
  intros Hvis. destruct ie as [i e]. unfold match_excel_item.
  destruct (scan_pdf_visible i e (enumerate pdf_items) st1 st2 init_best Hvis)
    as [Hst Hbest].
  destruct (scan_pdf i e (enumerate pdf_items) st1 init_best) as [a1 b1].
  destruct (scan_pdf i e (enumerate pdf_items) st2 init_best) as [a2 b2].
  simpl in Hst, Hbest. subst b2.
  assert (matched_excel_indices a1 = matched_excel_indices a2) as Hex
    by (unfold visible in Hst; congruence).
  rewrite Hex.
  destruct (decide (i ∈ matched_excel_indices a2)); [exact Hst|].
  destruct (best_match b1) as [[[p j] d]|]; [|exact Hst].
  unfold visible in *. simpl. injection Hst as -> -> ->. reflexivity.
Qed.

End OuterStep.

(** ** The loop invariant *)

Section Invariant.
Context `{PyRuntime}.

Lemma claimed_pairs_perfect (st : MatcherState) (i j : nat) :
  claimed_pairs (claim_perfect st i j) ≡ₚ (i, j) :: claimed_pairs st.
Proof.
  unfold claimed_pairs. simpl.
  rewrite <- app_assoc. simpl. symmetry. apply Permutation_middle.
Qed.

Lemma claimed_pairs_partial (st : MatcherState) (i : nat) (e : LineItem)
    (s : nat) (p : LineItem) (j : nat) (d : Diff.t) :
  claimed_pairs (record_partial st i e s p j d) ≡ₚ (i, j) :: claimed_pairs st.
Proof.
  unfold claimed_pairs. simpl.
  rewrite app_assoc. symmetry. apply Permutation_cons_append.
Qed.

Lemma matcher_inv_init (excel_items pdf_items : list LineItem) :
  matcher_inv excel_items pdf_items 0 (init_state excel_items pdf_items).
Proof.
  split; simpl; auto.
  - intros i. rewrite elem_of_nil. split; [apply not_elem_of_empty | tauto].
  - intros j. rewrite elem_of_nil. split; [apply not_elem_of_empty | tauto].
  - constructor.
  - constructor.
  - intros i j Hin. now apply elem_of_nil in Hin.
  - intros i j Hin. now apply elem_of_nil in Hin.
Qed.

Lemma matcher_inv_weaken (excel_items pdf_items : list LineItem) (k k' : nat)
    (st : MatcherState) :
  k <= k' -> matcher_inv excel_items pdf_items k st ->
  matcher_inv excel_items pdf_items k' st.
Proof.
  intros Hle [].
  split; auto. intros i j Hin.
  destruct (inv_range0 i j Hin) as (? & ? & ?). repeat split; auto; lia.
Qed.

(** An index not yet visited by the outer loop is unclaimed. *)
Lemma matcher_inv_fresh (excel_items pdf_items : list LineItem) (k i : nat)
    (st : MatcherState) :
  matcher_inv excel_items pdf_items k st -> k <= i ->
  i ∉ matched_excel_indices st.
Proof.
  intros Hinv Hle Hin.
  apply (inv_excel_set _ _ _ _ Hinv) in Hin.
  apply list_elem_of_fmap in Hin as ([a b] & -> & Hin).
  destruct (inv_range _ _ _ _ Hinv a b Hin) as (Hlt & _). simpl in Hle. lia.
Qed.

(** A fresh pair of indices keeps the bookkeeping of the claimed pairs. *)
Lemma claimed_step (excel_items pdf_items : list LineItem) (i j : nat)
    (st st' : MatcherState) :
  matcher_inv excel_items pdf_items i st ->
  i < length excel_items -> j < length pdf_items ->
  j ∉ matched_pdf_indices st ->
  claimed_pairs st' ≡ₚ (i, j) :: claimed_pairs st ->
  matched_excel_indices st' = matched_excel_indices st ∪ {[i]} ->
  matched_pdf_indices st' = matched_pdf_indices st ∪ {[j]} ->
  (forall a, a ∈ matched_excel_indices st' <-> a ∈ (claimed_pairs st').*1)
  /\ (forall b, b ∈ matched_pdf_indices st' <-> b ∈ (claimed_pairs st').*2)
  /\ NoDup (claimed_pairs st').*1
  /\ NoDup (claimed_pairs st').*2
  /\ (forall a b, (a, b) ∈ claimed_pairs st' ->
        a < S i /\ a < length excel_items /\ b < length pdf_items).
Proof.
  intros Hinv Hi Hj Hfree Hperm -> ->.
  pose proof (matcher_inv_fresh _ _ _ i _ Hinv (Nat.le_refl i)) as Hifree.
  destruct Hinv.
  split; [|split; [|split; [|split]]].
  - intros a. rewrite Hperm. simpl.
    rewrite elem_of_cons, <- inv_excel_set0, elem_of_union, elem_of_singleton.
    tauto.
  - intros b. rewrite Hperm. simpl.
    rewrite elem_of_cons, <- inv_pdf_set0, elem_of_union, elem_of_singleton.
    tauto.
  - rewrite Hperm. simpl. apply NoDup_cons. split; [|assumption].
    now rewrite <- inv_excel_set0.
  - rewrite Hperm. simpl. apply NoDup_cons. split; [|assumption].
    now rewrite <- inv_pdf_set0.
  - intros a b. rewrite Hperm, elem_of_cons. intros [E | Hin].
    + inversion E; subst. repeat split; auto.
    + destruct (inv_range0 a b Hin) as (? & ? & ?). repeat split; auto.
Qed.

Lemma matcher_inv_perfect (excel_items pdf_items : list LineItem)
    (i j : nat) (e p : LineItem) (st : MatcherState) :
  matcher_inv excel_items pdf_items i st ->
  excel_items !! i = Some e ->
  candidate (matched_pdf_indices st) pdf_items j p ->
  score e p = 8 ->
  matcher_inv excel_items pdf_items (S i) (claim_perfect st i j).
Proof.
  intros Hinv He [Hp Hfree] H8.
  destruct (claimed_step excel_items pdf_items i j st (claim_perfect st i j))
    as (? & ? & ? & ? & ?); auto using claimed_pairs_perfect.
  { exact (lookup_lt_Some _ _ _ He). }
  { exact (lookup_lt_Some _ _ _ Hp). }
  destruct Hinv. split; simpl; auto.
  - rewrite length_app. simpl. lia.
  - intros a b Hin. apply elem_of_app in Hin as [Hin | Hin]; [now auto|].
    apply list_elem_of_singleton in Hin. inversion Hin; subst. eauto.
Qed.

Lemma matcher_inv_partial (excel_items pdf_items : list LineItem)
    (i j : nat) (e p : LineItem) (st : MatcherState) :
  matcher_inv excel_items pdf_items i st ->
  excel_items !! i = Some e ->
  candidate (matched_pdf_indices st) pdf_items j p ->
  4 <= score e p <= 7 ->
  matcher_inv excel_items pdf_items (S i)
    (record_partial st i e (score e p) p j (field_agreement e p)).
Proof.
  intros Hinv He [Hp Hfree] Hs.
  destruct (claimed_step excel_items pdf_items i j st
              (record_partial st i e (score e p) p j (field_agreement e p)))
    as (? & ? & ? & ? & ?); auto using claimed_pairs_partial.
  { exact (lookup_lt_Some _ _ _ He). }
  { exact (lookup_lt_Some _ _ _ Hp). }
  destruct Hinv. split; simpl; auto.
  apply Forall2_app; [assumption|].
  constructor; [|constructor].
  unfold partial_entry. simpl. auto.
Qed.

Lemma state_after_S (excel_items pdf_items : list LineItem) (k : nat)
    (e : LineItem) :
  excel_items !! k = Some e ->
  state_after excel_items pdf_items (S k)
  = match_excel_item pdf_items (state_after excel_items pdf_items k) (k, e).
Proof.
  intros He. unfold state_after.
  now rewrite (enumerate_take_S _ _ _ He), fold_left_app.
Qed.

(** The invariant holds after every iteration. *)
Lemma matcher_inv_state_after (excel_items pdf_items : list LineItem) (k : nat) :
  k <= length excel_items ->
  matcher_inv excel_items pdf_items k (state_after excel_items pdf_items k).
Proof.
  induction k as [|k IH]; intros Hk.
  - apply matcher_inv_init.
  - destruct (lookup_lt_is_Some_2 excel_items k ltac:(lia)) as [e He].
    rewrite (state_after_S _ _ _ _ He).
    specialize (IH ltac:(lia)).
    pose proof (matcher_inv_fresh _ _ _ k _ IH (Nat.le_refl k)) as Hfresh.
    destruct (match_excel_item_cases pdf_items _ k e Hfresh)
      as [(j & p & Hc & H8 & ->) | [(j & p & Hc & Hs & ->) | ->]].
    + eapply matcher_inv_perfect; eauto.
    + eapply matcher_inv_partial; eauto.
    + eapply matcher_inv_weaken; [|exact IH]. lia.
Qed.

Lemma matching_state_after (excel_items pdf_items : list LineItem) :
  matching excel_items pdf_items
  = state_after excel_items pdf_items (length excel_items).
Proof. unfold matching, state_after. now rewrite enumerate_take_all. Qed.

Lemma matcher_inv_matching (excel_items pdf_items : list LineItem) :
  matcher_inv excel_items pdf_items (length excel_items)
    (matching excel_items pdf_items).
Proof.
  rewrite matching_state_after. now apply matcher_inv_state_after.
Qed.

End Invariant.

(** ** Counting the unclaimed items *)

Section Counting.

Lemma unclaimed_length_seq (M : gset nat) (n : nat) (l : list LineItem) :
  length (filter (fun ip : nat * LineItem => ip.1 ∉ M) (enumerate_from n l))
  = length (filter (fun i => i ∉ M) (seq n (length l))).
Proof.
  revert n. induction l as [|x l IH]; intros n; [reflexivity|].
  simpl. rewrite !filter_cons. simpl.
  destruct (decide (n ∉ M)); simpl; now rewrite IH.
Qed.

Lemma filter_split_length (M : gset nat) (s : list nat) :
  length (filter (fun i => i ∉ M) s) + length (filter (fun i => i ∈ M) s)
  = length s.
Proof.
  induction s as [|x s IH]; [reflexivity|].
  rewrite !filter_cons.
  destruct (decide (x ∉ M)) as [Hx | Hx]; destruct (decide (x ∈ M)) as [Hy | Hy];
    simpl; try lia; tauto.
Qed.

(** When the claimed set is a duplicate-free list of indices of [l], the
    unclaimed items are the rest of [l]. *)
Lemma unclaimed_length (M : gset nat) (l : list LineItem) (claimed : list nat) :
  NoDup claimed ->
  (forall i, i ∈ M <-> i ∈ claimed) ->
  (forall i, i ∈ claimed -> i < length l) ->
  length (unclaimed M l) + length claimed = length l.
Proof.
  intros Hnd Hset Hrange. unfold unclaimed, enumerate.
  rewrite unclaimed_length_seq.
  pose proof (filter_split_length M (seq 0 (length l))) as Hs.
  rewrite length_seq in Hs.
  assert (filter (fun i => i ∈ M) (seq 0 (length l)) ≡ₚ claimed) as Hperm.
  { apply NoDup_Permutation; auto.
    - apply NoDup_filter, NoDup_seq.
    - intros i. rewrite list_elem_of_filter, elem_of_seq, Hset. split.
      + tauto.
      + intros Hi. split; [exact Hi|]. specialize (Hrange i Hi). lia. }
  apply Permutation_length in Hperm. lia.
Qed.

End Counting.

(** ** The matcher: partition, scores and order of choice *)

Section MatcherTheorems.
Context `{PyRuntime}.

Lemma final_state_inv (excel_items pdf_items : list LineItem) :
  let st := final_state excel_items pdf_items in
  (forall i, i ∈ matched_excel_indices st <-> i ∈ (claimed_pairs st).*1)
  /\ (forall j, j ∈ matched_pdf_indices st <-> j ∈ (claimed_pairs st).*2)
  /\ NoDup (claimed_pairs st).*1
  /\ NoDup (claimed_pairs st).*2
  /\ (forall i j, (i, j) ∈ claimed_pairs st ->
        i < length excel_items /\ j < length pdf_items).
Proof.
  destruct (matcher_inv_matching excel_items pdf_items).
  simpl. unfold final_state, claimed_pairs in *. simpl.
  split; [|split; [|split; [|split]]]; auto.
  intros i j Hin. now destruct (inv_range0 i j Hin) as (_ & ? & ?).
Qed.

Lemma outcome_unique (claimed : gset nat) (perfect partial : list nat) (i : nat)
    (P : Outcome -> Prop) :
  (forall a, a ∈ claimed <-> a ∈ perfect ++ partial) ->
  NoDup (perfect ++ partial) ->
  (forall o, P o <-> match o with
                     | Perfect => i ∈ perfect
                     | Partial => i ∈ partial
                     | Unmatched => i ∉ claimed
                     end) ->
  exists! o, P o.
Proof.
  intros Hset Hnd HP.
  apply NoDup_app in Hnd as (_ & Hdisj & _).
  destruct (decide (i ∈ claimed)) as [Hin | Hout].
  - pose proof Hin as Hin'. apply Hset, elem_of_app in Hin' as [Hp | Hp].
    + exists Perfect. split; [now apply HP|].
      intros [| |] Ho; apply HP in Ho; auto.
      * now apply Hdisj in Hp.
      * contradiction.
    + exists Partial. split; [now apply HP|].
      intros [| |] Ho; apply HP in Ho; auto.
      * now apply Hdisj in Ho.
      * contradiction.
  - exists Unmatched. split; [now apply HP|].
    intros [| |] Ho; apply HP in Ho; auto; exfalso; apply Hout, Hset, elem_of_app;
      auto.
Qed.

(** C1: [compare_line_items] is total, and in its final state every index of
    [excel_items] has exactly one outcome among perfect, partial and
    unmatched, and so has every index of [pdf_items]; no index is claimed
    twice, every claimed pair is within the two lists, the counter, the
    list ['mismatches'] and the two unmatched lists of the returned
    dictionary are read off that classification, and on each side the three
    counts add up to the number of items. *)
Theorem compare_line_items_partition (excel_items pdf_items : list LineItem) :
  let st := final_state excel_items pdf_items in
  let r := compare_line_items excel_items pdf_items in
  (forall i, i < length excel_items -> exists! o, excel_outcome st i o)
  /\ (forall j, j < length pdf_items -> exists! o, pdf_outcome st j o)
  /\ NoDup (claimed_pairs st).*1
  /\ NoDup (claimed_pairs st).*2
  /\ (forall i j, (i, j) ∈ claimed_pairs st ->
        i < length excel_items /\ j < length pdf_items)
  /\ perfect_matches r = length (perfect_pairs st)
  /\ Forall2 (partial_entry excel_items pdf_items)
       (mismatches r) (partial_pairs st)
  /\ unmatched_excel r = (unclaimed (matched_excel_indices st) excel_items).*2
  /\ unmatched_pdf r = (unclaimed (matched_pdf_indices st) pdf_items).*2
  /\ length excel_items
     = perfect_matches r + length (mismatches r) + length (unmatched_excel r)
  /\ length pdf_items
     = perfect_matches r + length (mismatches r) + length (unmatched_pdf r).
Proof.
  intros st r.
  destruct (final_state_inv excel_items pdf_items)
    as (Hex & Hpdf & Hnd1 & Hnd2 & Hrange).
  fold st in Hex, Hpdf, Hnd1, Hnd2, Hrange.
  pose proof (matcher_inv_matching excel_items pdf_items) as Hinv.
  assert (perfect_matches r = length (perfect_pairs st)) as Hcount.
  { exact (inv_count _ _ _ _ Hinv). }
  assert (Forall2 (partial_entry excel_items pdf_items)
            (mismatches r) (partial_pairs st)) as Hpartial.
  { exact (inv_partial _ _ _ _ Hinv). }
  assert (unmatched_excel r
          = (unclaimed (matched_excel_indices st) excel_items).*2) as Hue.
  { unfold r, compare_line_items, final_state. simpl.
    now rewrite (proj1 (inv_unmatched _ _ _ _ Hinv)). }
  assert (unmatched_pdf r
          = (unclaimed (matched_pdf_indices st) pdf_items).*2) as Hup.
  { unfold r, compare_line_items, final_state. simpl.
    now rewrite (proj2 (inv_unmatched _ _ _ _ Hinv)). }
  assert (length (claimed_pairs st)
          = perfect_matches r + length (mismatches r)) as Hlen.
  { unfold claimed_pairs. rewrite length_app, Hcount.
    now rewrite (Forall2_length _ _ _ Hpartial). }
  split; [|split; [|repeat split; auto]].
  - intros i _. apply (outcome_unique (matched_excel_indices st)
      (perfect_pairs st).*1 (partial_pairs st).*1 i).
    + intros a. rewrite <- fmap_app. apply Hex.
    + rewrite <- fmap_app. exact Hnd1.
    + intros [| |]; reflexivity.
  - intros j _. apply (outcome_unique (matched_pdf_indices st)
      (perfect_pairs st).*2 (partial_pairs st).*2 j).
    + intros a. rewrite <- fmap_app. apply Hpdf.
    + rewrite <- fmap_app. exact Hnd2.
    + intros [| |]; reflexivity.
  - now destruct (Hrange i j).
  - now destruct (Hrange i j).
  - rewrite Hue, length_fmap, <- Hlen, <- (length_fmap fst (claimed_pairs st)).
    rewrite Nat.add_comm. symmetry. apply unclaimed_length; auto.
    intros i Hi. apply list_elem_of_fmap in Hi as ([a b] & -> & Hin).
    now destruct (Hrange a b Hin).
  - rewrite Hup, length_fmap, <- Hlen, <- (length_fmap snd (claimed_pairs st)).
    rewrite Nat.add_comm. symmetry. apply unclaimed_length; auto.
    intros i Hi. apply list_elem_of_fmap in Hi as ([a b] & -> & Hin).
    now destruct (Hrange a b Hin).
Qed.

Lemma score_of_8_all_agree (d : Diff.t) :
  score_of d = 8 <-> all_agree d = true.
Proof.
  destruct d as [[] [] [] [] [] [] [] []]; unfold score_of, all_agree; simpl;
    split; intros E; try reflexivity; try discriminate E; lia.
Qed.

Lemma Forall2_elem_l {A B : Type} (P : A -> B -> Prop) (l : list A)
    (k : list B) (x : A) :
  Forall2 P l k -> x ∈ l -> exists y, y ∈ k /\ P x y.
Proof.
  induction 1 as [|a b l k Hab _ IH]; intros Hin.
  - now apply elem_of_nil in Hin.
  - apply elem_of_cons in Hin as [-> | Hin].
    + exists b. split; [apply list_elem_of_here | exact Hab].
    + destruct (IH Hin) as (y & Hy & HP). exists y. split; [|exact HP].
      now apply elem_of_cons; right.
Qed.

(** C2: every pair counted as a perfect match has score 8, that is all eight
    compared fields agree, and every entry of ['mismatches'] carries the
    field flags of its two items and the score of that pair, which is
    between 4 and 7: no pair of score below 4 is recorded. *)
Theorem match_scores (excel_items pdf_items : list LineItem) :
  let st := final_state excel_items pdf_items in
  let r := compare_line_items excel_items pdf_items in
  perfect_matches r = length (perfect_pairs st)
  /\ (forall i j, (i, j) ∈ perfect_pairs st ->
        exists e p, excel_items !! i = Some e /\ pdf_items !! j = Some p
                    /\ score e p = 8
                    /\ all_agree (field_agreement e p) = true)
  /\ (forall m, m ∈ mismatches r ->
        excel_item m ∈ excel_items
        /\ pdf_item m ∈ pdf_items
        /\ differences m = field_agreement (excel_item m) (pdf_item m)
        /\ match_score m = (Py.str_of_nat (score_of (differences m)) ++ "/8")%string
        /\ 4 <= score_of (differences m) <= 7).
Proof.
  intros st r.
  pose proof (matcher_inv_matching excel_items pdf_items) as Hinv.
  split; [exact (inv_count _ _ _ _ Hinv) | split].
  - intros i j Hin.
    destruct (inv_perfect _ _ _ _ Hinv i j Hin) as (e & p & He & Hp & H8).
    exists e, p. repeat split; auto. now apply score_of_8_all_agree.
  - intros m Hin.
    destruct (Forall2_elem_l _ _ _ m (inv_partial _ _ _ _ Hinv) Hin)
      as ([i j] & _ & He & Hp & Hd & Hs & Hrange).
    simpl in He, Hp. rewrite Hd. fold (score (excel_item m) (pdf_item m)).
    repeat split; try tauto.
    + apply list_elem_of_lookup. eauto.
    + apply list_elem_of_lookup. eauto.
Qed.




End MatcherTheorems.


(** The scenarios of the specification, run on the decimal interpreter. *)
Example scenario_identical :
  @compare_line_items DecimalRuntime.runtime [Sample.coin] [Sample.coin]
  = {| total_excel := 1; total_pdf := 1; perfect_matches := 1;
       mismatches := []; unmatched_excel := []; unmatched_pdf := [] |}.
Proof. vm_compute. reflexivity. Qed.

Example scenario_total_differs :
  map match_score
    (mismatches (@compare_line_items DecimalRuntime.runtime
                   [Sample.coin] [Sample.coin55]))
  = ["7/8"].
Proof. vm_compute. reflexivity. Qed.

Example scenario_second_matches :
  let r := @compare_line_items DecimalRuntime.runtime
             [Sample.note; Sample.coin] [Sample.coin] in
  perfect_matches r = 1 /\ mismatches r = []
  /\ unmatched_excel r = [Sample.note] /\ unmatched_pdf r = [].
Proof. vm_compute. repeat split; reflexivity. Qed.

(** ** Tariff code, country code and year *)

Lemma py_eq_str (v : pyval) (s : string) :
  Py.eq v (PStr s) = true <-> v = PStr s.
Proof.
  destruct v; simpl; try (split; [discriminate | congruence]).
  rewrite String.eqb_eq. split; congruence.
Qed.

(** The flags of the tariff code and of the country code are the equality
    of the [str] renderings of the two stored values, without tolerance or
    case folding; the flag of the year is Python equality: two nulls are
    equal, two integers are equal when they are the same, and a null is
    never equal to an integer. A null code on one side agrees with no
    six-character tariff code and with no two-letter country code on the
    other side. *)
Lemma code_and_year_flags `{PyRuntime} (e p : LineItem) :
  let d := field_agreement e p in
  (Diff.hs_code d = true <-> Py.str (hs_code e) = Py.str (hs_code p))
  /\ (Diff.country_code d = true
      <-> Py.str (country_code e) = Py.str (country_code p))
  /\ (forall s t, hs_code e = PStr s -> hs_code p = PStr t ->
        (Diff.hs_code d = true <-> s = t))
  /\ (forall s t, country_code e = PStr s -> country_code p = PStr t ->
        (Diff.country_code d = true <-> s = t))
  /\ (forall s, (hs_code e = PNone /\ hs_code p = PStr s)
                \/ (hs_code e = PStr s /\ hs_code p = PNone) ->
        String.length s = 6 -> Diff.hs_code d = false)
  /\ (forall s, (country_code e = PNone /\ country_code p = PStr s)
                \/ (country_code e = PStr s /\ country_code p = PNone) ->
        String.length s = 2 -> Diff.country_code d = false)
  /\ Diff.year d = Py.eq (year e) (year p)
  /\ (year e = PNone -> year p = PNone -> Diff.year d = true)
  /\ (forall a b, year e = PInt a -> year p = PInt b ->
        (Diff.year d = true <-> a = b))
  /\ (forall a, (year e = PNone /\ year p = PInt a)
                \/ (year e = PInt a /\ year p = PNone) ->
        Diff.year d = false).
Proof.
  intros d. subst d. cbn [field_agreement Diff.hs_code Diff.country_code Diff.year].
  assert (forall a b s t, a = PStr s -> b = PStr t ->
            (String.eqb (Py.str a) (Py.str b) = true <-> s = t)) as Htext.
  { intros a b s t -> ->. apply String.eqb_eq. }
  assert (forall a b s n,
            (a = PNone /\ b = PStr s) \/ (a = PStr s /\ b = PNone) ->
            String.length s = n -> n <> 4 ->
            String.eqb (Py.str a) (Py.str b) = false) as Hnull.
  { intros a b s n Hab Hlen Hn. apply String.eqb_neq. intros Heq.
    apply Hn. rewrite <- Hlen.
    destruct Hab as [[-> ->] | [-> ->]]; cbn [Py.str] in Heq; now subst s. }
  split; [apply String.eqb_eq|].
  split; [apply String.eqb_eq|].
  split; [intros s t; apply Htext|].
  split; [intros s t; apply Htext|].
  split; [intros s Hs Hlen; now apply (Hnull _ _ s 6)|].
  split; [intros s Hs Hlen; now apply (Hnull _ _ s 2)|].
  split; [reflexivity|].
  split; [intros -> ->; reflexivity|].
  split.
  - intros a b -> ->. apply Z.eqb_eq.
  - intros a [[-> ->] | [-> ->]]; reflexivity.
Qed.

(** A sheet without tariff code and country code in its item row: the two
    fields are stored as nulls and agree with no code of the document. *)
Example scenario_null_codes :
  let row := [ PInt 1; PInt 3; PNone; PStr "United Kingdom"; PNone;
               PInt 1990; PStr "coin"; PStr "silver"; PFloat (inject_Z 1);
               PNone; PNone; PFloat (inject_Z 10) ] in
  exists it,
    @excel_row_item DecimalRuntime.runtime row = Some (Some it)
    /\ hs_code it = PNone /\ country_code it = PNone
    /\ Diff.hs_code
         (@field_agreement DecimalRuntime.runtime it SampleRow.document_item)
       = false
    /\ Diff.country_code
         (@field_agreement DecimalRuntime.runtime it SampleRow.document_item)
       = false.
Proof. eexists. vm_compute. repeat split; reflexivity. Qed.

(** C6, at the failing input: the tabular extractor strips the country code
    but only removes the dots of the tariff code, so a tariff cell typed
    with a blank after it, ['9705.31 '], is stored as ['970531 '] while the
    cell [' GB '] is stored as ['GB']; the matcher then compares the stored
    texts exactly, and against the document line with the code [970531] the
    tariff codes, equal once trimmed, do not agree: the pair scores 7 out of
    8 and is reported as a partial match, whereas the same row without the
    blank gives a perfect match. *)
Theorem hs_code_compared_untrimmed :
  let excel_of row :=
    @excel_line_items DecimalRuntime.runtime
      [SampleRow.header_row; row; SampleRow.total_row] in
  let pdf_items := pdf_append [] SampleRow.document_item in
  let agreement := @field_agreement DecimalRuntime.runtime in
  let reconcile := @compare_line_items DecimalRuntime.runtime in
  excel_of SampleRow.padded_row = Some [SampleRow.padded_item]
  /\ excel_of SampleRow.item_row = Some [SampleRow.item]
  /\ pdf_items = [SampleRow.document_item]
  /\ hs_code SampleRow.padded_item = PStr "970531 "
  /\ hs_code SampleRow.document_item = PStr "970531"
  /\ Py.strip "970531 " = Py.strip "970531"
  /\ country_code SampleRow.padded_item = country_code SampleRow.document_item
  /\ agreement SampleRow.padded_item SampleRow.document_item
     = {| Diff.quantity := true; Diff.net_weight := true;
          Diff.description := true; Diff.hs_code := false;
          Diff.country_code := true; Diff.year := true;
          Diff.unit_value := true; Diff.total_value := true |}
  /\ perfect_matches (reconcile [SampleRow.padded_item] pdf_items) = 0
  /\ map match_score (mismatches (reconcile [SampleRow.padded_item] pdf_items))
     = ["7/8"]
  /\ perfect_matches (reconcile [SampleRow.item] pdf_items) = 1
  /\ mismatches (reconcile [SampleRow.item] pdf_items) = [].
Proof. vm_compute. repeat split; reflexivity. Qed.

(** ** The report *)

Section ReportTheorems.
Context `{PyRuntime}.

Lemma compare_line_items_totals (excel_items pdf_items : list LineItem) :
  total_excel (compare_line_items excel_items pdf_items) = length excel_items
  /\ total_pdf (compare_line_items excel_items pdf_items) = length pdf_items.
Proof.
  exact (inv_totals _ _ _ _ (matcher_inv_matching excel_items pdf_items)).
Qed.

Lemma length_eqb_0 {A : Type} (l : list A) :
  Nat.eqb (length l) 0 = true <-> l = [].
Proof. destruct l; simpl; split; congruence. Qed.

Lemma items_ok_iff (s : Results) :
  items_ok s = true
  <-> perfect_matches s = total_excel s /\ mismatches s = []
      /\ unmatched_excel s = [] /\ unmatched_pdf s = [].
Proof.
  unfold items_ok.
  rewrite !andb_true_iff, Nat.eqb_eq, !length_eqb_0. tauto.
Qed.

Lemma status_of_check (b : bool) :
  String.eqb (if b then status_pass else status_fail) status_pass = b.
Proof. destruct b; reflexivity. Qed.

Lemma banners_differ : pass_banner <> fail_banner.
Proof. discriminate. Qed.

(** The lines of a run: what precedes the details, the details, and what
    follows them. *)
Lemma report_lines_run (now : string) (excel_data pdf_data : Extracted) :
  let vr := verify (init now) excel_data pdf_data in
  let r := compare_line_items (line_items excel_data) (line_items pdf_data) in
  exists cn pos,
    contact_check vr = Some cn /\ purpose_check vr = Some pos
    /\ contact_ok cn = Py.eq (contact_name pdf_data) (PStr required_contact)
    /\ purpose_ok pos
       = Py.eq (purpose_of_shipment pdf_data) (PStr required_purpose)
    /\ (forall now', contact_check (verify (init now') excel_data pdf_data)
                     = Some cn
                     /\ purpose_check (verify (init now') excel_data pdf_data)
                        = Some pos)
    /\ report_lines vr
       = option_map
           (fun details =>
              head_lines now cn pos r ++ details
              ++ final_summary_lines cn pos r ++ final_banner cn pos r ++ [""])
           (detail_lines r).
Proof.
  intros vr r. eexists _, _.
  split; [reflexivity|]. split; [reflexivity|].
  split; [apply status_of_check|]. split; [apply status_of_check|].
  split; [intros now'; split; reflexivity|].
  unfold report_lines, vr, verify. cbn [contact_check purpose_check summary timestamp init].
  fold r. destruct (detail_lines r); reflexivity.
Qed.

(** C7: the report of a run ends with the banner followed by one empty
    line, and the banner is the one that announces that all checks passed
    exactly when the contact name and the purpose read from the PDF are the
    required ones, the number of perfect matches is the number of Excel
    items, and there is no partial match and no unmatched item on either
    side. *)
Theorem report_banner (now : string) (excel_data pdf_data : Extracted)
    (lines : list string) :
  report_lines (verify (init now) excel_data pdf_data) = Some lines ->
  let r := compare_line_items (line_items excel_data) (line_items pdf_data) in
  exists body banner,
    lines = body ++ banner ++ [""]
    /\ (banner = pass_banner \/ banner = fail_banner)
    /\ (banner = pass_banner
        <-> contact_name pdf_data = PStr required_contact
            /\ purpose_of_shipment pdf_data = PStr required_purpose
            /\ perfect_matches r = length (line_items excel_data)
            /\ mismatches r = []
            /\ unmatched_excel r = []
            /\ unmatched_pdf r = []).
Proof.
  intros Hlines r.
  destruct (report_lines_run now excel_data pdf_data)
    as (cn & pos & _ & _ & Hcn & Hpos & _ & Hrun).
  fold r in Hrun. rewrite Hrun in Hlines.
  destruct (detail_lines r) as [details|]; [|discriminate].
  injection Hlines as <-.
  exists (head_lines now cn pos r ++ details ++ final_summary_lines cn pos r),
         (final_banner cn pos r).
  split; [now rewrite <- !app_assoc|].
  pose proof (proj1 (compare_line_items_totals (line_items excel_data)
                       (line_items pdf_data))) as Htot.
  fold r in Htot.
  assert (contact_ok cn && purpose_ok pos && items_ok r = true
          <-> contact_name pdf_data = PStr required_contact
              /\ purpose_of_shipment pdf_data = PStr required_purpose
              /\ perfect_matches r = length (line_items excel_data)
              /\ mismatches r = []
              /\ unmatched_excel r = []
              /\ unmatched_pdf r = []) as Hiff.
  { rewrite !andb_true_iff, Hcn, Hpos, !py_eq_str, items_ok_iff, Htot. tauto. }
  unfold final_banner.
  destruct (contact_ok cn && purpose_ok pos && items_ok r).
  - split; [now left|]. split; [intros _; now apply Hiff | reflexivity].
  - split; [now right|]. split.
    + intros E. symmetry in E. now apply banners_differ in E.
    + intros Hc. apply Hiff in Hc. discriminate.
Qed.

End ReportTheorems.

Lemma report_banner_witness :
  exists body banner,
    default [] (@report_lines DecimalRuntime.runtime
                  (@verify DecimalRuntime.runtime (init "2026-01-01 10:00:00")
                     Sample.excel_source Sample.pdf_source))
    = body ++ banner ++ [""]
    /\ banner = pass_banner.
Proof.
  destruct (@report_banner DecimalRuntime.runtime "2026-01-01 10:00:00"
              Sample.excel_source Sample.pdf_source
              (default [] (@report_lines DecimalRuntime.runtime
                 (@verify DecimalRuntime.runtime (init "2026-01-01 10:00:00")
                    Sample.excel_source Sample.pdf_source))))
    as (body & banner & Hsplit & _ & Hpass).
  - vm_compute. reflexivity.
  - exists body, banner. split; [exact Hsplit|].
    apply Hpass. vm_compute. repeat split; reflexivity.
Defined.

Section ClockTheorems.
Context `{PyRuntime}.

Lemma head_lines_shape (cn : ContactCheck) (pos : PurposeCheck) (s : Results) :
  exists a b c d rest, forall ts,
    head_lines ts cn pos s
    = a :: b :: c :: d :: ("Generated: " ++ ts ++ nl)%string :: rest.
Proof. do 5 eexists. intros ts. reflexivity. Qed.

Lemma lookup_except_4 {A : Type} (a b c d g g' : A) (rest : list A) (k : nat) :
  k <> 4 ->
  (a :: b :: c :: d :: g :: rest) !! k = (a :: b :: c :: d :: g' :: rest) !! k.
Proof.
  intros Hk. destruct k as [|[|[|[|[|k]]]]]; try reflexivity. contradiction.
Qed.

(** C8, amended: the report is a function of the verification results and
    of the clock reading taken when the verifier is built. Two runs on the
    same extracted data both raise or both produce a report; the two lists
    of lines have the same length, their fifth line is ["Generated: "]
    followed by the clock reading of the run, and every other line is the
    same in both; with the same clock reading the two texts are equal. *)
Theorem report_clock_dependence (now1 now2 : string)
    (excel_data pdf_data : Extracted) :
  match report_lines (verify (init now1) excel_data pdf_data),
        report_lines (verify (init now2) excel_data pdf_data) with
  | Some l1, Some l2 =>
      length l1 = length l2
      /\ l1 !! 4 = Some ("Generated: " ++ now1 ++ nl)%string
      /\ l2 !! 4 = Some ("Generated: " ++ now2 ++ nl)%string
      /\ (forall k, k <> 4 -> l1 !! k = l2 !! k)
  | None, None => True
  | _, _ => False
  end
  /\ (now1 = now2 ->
      run_report now1 excel_data pdf_data = run_report now2 excel_data pdf_data).
Proof.
  split; [|now intros ->].
  destruct (report_lines_run now1 excel_data pdf_data)
    as (cn & pos & _ & _ & _ & _ & Hsame & ->).
  destruct (report_lines_run now2 excel_data pdf_data)
    as (cn' & pos' & Hcn' & Hpos' & _ & _ & _ & ->).
  destruct (Hsame now2) as [Ecn Epos].
  rewrite Ecn in Hcn'. rewrite Epos in Hpos'.
  injection Hcn' as <-. injection Hpos' as <-.
  set (r := compare_line_items (line_items excel_data) (line_items pdf_data)).
  destruct (detail_lines r) as [details|]; cbn [option_map]; [|exact I].
  destruct (head_lines_shape cn pos r) as (a & b & c & d & rest & Hshape).
  rewrite !Hshape, <- !app_comm_cons.
  split; [simpl; now rewrite !length_app|].
  split; [reflexivity|]. split; [reflexivity|].
  intros k Hk. now apply lookup_except_4.
Qed.

End ClockTheorems.

(** Two runs on the same data one second apart print different reports. *)
Lemma report_differs_across_runs :
  @run_report DecimalRuntime.runtime "2026-01-01 10:00:00"
    Sample.excel_source Sample.pdf_source
  <> @run_report DecimalRuntime.runtime "2026-01-01 10:00:01"
       Sample.excel_source Sample.pdf_source.
Proof.
  intros E.
  assert (match @run_report DecimalRuntime.runtime "2026-01-01 10:00:00"
                  Sample.excel_source Sample.pdf_source,
                @run_report DecimalRuntime.runtime "2026-01-01 10:00:01"
                  Sample.excel_source Sample.pdf_source with
          | Some t1, Some t2 => String.eqb t1 t2
          | _, _ => true
          end = false) as Hb.
  { vm_compute. reflexivity. }
  rewrite E in Hb.
  destruct (@run_report DecimalRuntime.runtime "2026-01-01 10:00:01"
              Sample.excel_source Sample.pdf_source); [|discriminate].
  rewrite String.eqb_refl in Hb. discriminate.
Qed.

(** ** Quantity zero in the extractors *)

Section ZeroQuantity.
Context `{PyRuntime}.

Lemma numeric_zero_falsy (v : pyval) : numeric_zero v -> Py.truthy v = false.
Proof.
  intros [-> | (q & -> & Hq)]; [reflexivity|].
  simpl. apply Qeq_bool_iff in Hq. now rewrite Hq.
Qed.

(** A row of the sheet whose quantity cell is the number zero is never
    appended: it is skipped, or the row raises. *)
Lemma excel_row_zero_quantity (row : list pyval) (q : pyval) :
  row !! 1 = Some q -> numeric_zero q ->
  excel_row_item row = Some None \/ excel_row_item row = None.
Proof.
  intros Hq Hzero. apply numeric_zero_falsy in Hzero.
  unfold excel_row_item. rewrite Hq.
  destruct (row !! 0) as [rk|]; [|now right].
  destruct (row !! 2); [|now right]. destruct (row !! 3); [|now right].
  destruct (row !! 4); [|now right]. destruct (row !! 5); [|now right].
  destruct (row !! 6); [|now right].
  cbn [mbind option_bind]. unfold excel_unit_value.
  rewrite Hzero, andb_false_r. cbn [mbind option_bind].
  rewrite andb_false_r. now left.
Qed.

(** A parsed document line whose quantity is the number zero is not
    appended. *)
Lemma pdf_append_zero_quantity (items : list LineItem) (item : LineItem) :
  numeric_zero (quantity item) -> pdf_append items item = items.
Proof.
  intros Hzero. apply numeric_zero_falsy in Hzero.
  unfold pdf_append. now rewrite Hzero.
Qed.

End ZeroQuantity.

(** C5, at the failing inputs: a sheet row with rank 1, description "coin"
    and quantity 0 yields no line item, while the same row with quantity 10
    yields one; a document line whose quantity reads 0.00 is not appended;
    the comparator itself tells 0 from null. *)
Theorem zero_quantity_record_is_dropped :
  @excel_line_items DecimalRuntime.runtime (Sample.sheet (PInt 0)) = Some []
  /\ @excel_line_items DecimalRuntime.runtime
       (Sample.sheet (PFloat (inject_Z 0))) = Some []
  /\ length (default [] (@excel_line_items DecimalRuntime.runtime
                           (Sample.sheet (PInt 10)))) = 1
  /\ pdf_append [] Sample.zero_quantity_line = []
  /\ @compare_values DecimalRuntime.runtime (PInt 0) (PInt 0) default_tolerance
     = true
  /\ @compare_values DecimalRuntime.runtime (PInt 0) PNone default_tolerance
     = false.
Proof. vm_compute. repeat split; reflexivity. Qed.

(** * Further properties *)

(** ** The normaliser *)

Lemma lower_char_space (c : ascii) : Py.is_space (Py.lower_char c) = Py.is_space c.
Proof. destruct c as [[] [] [] [] [] [] [] []]; reflexivity. Qed.

Lemma lower_char_idem (c : ascii) : Py.lower_char (Py.lower_char c) = Py.lower_char c.
Proof. destruct c as [[] [] [] [] [] [] [] []]; reflexivity. Qed.

Lemma lower_idem (s : string) : Py.lower (Py.lower s) = Py.lower s.
Proof.
  induction s as [|c r IH]; simpl; [reflexivity|].
  now rewrite lower_char_idem, IH.
Qed.

Lemma rstrip_cons (c : ascii) (r : string) :
  Py.rstrip (String c r)
  = if Py.is_space c && String.eqb (Py.rstrip r) "" then ""
    else String c (Py.rstrip r).
Proof. reflexivity. Qed.

Lemma rstrip_idem (s : string) : Py.rstrip (Py.rstrip s) = Py.rstrip s.
Proof.
  induction s as [|c r IH]; [reflexivity|].
  rewrite rstrip_cons.
  destruct (Py.is_space c && String.eqb (Py.rstrip r) "") eqn:E; [reflexivity|].
  rewrite rstrip_cons, IH, E. reflexivity.
Qed.

Lemma rstrip_lower (s : string) : Py.rstrip (Py.lower s) = Py.lower (Py.rstrip s).
Proof.
  induction s as [|c r IH]; [reflexivity|].
  simpl Py.lower at 1. rewrite !rstrip_cons, IH, lower_char_space.
  assert (String.eqb (Py.lower (Py.rstrip r)) "" = String.eqb (Py.rstrip r) "") as ->.
  { destruct (Py.rstrip r); reflexivity. }
  destruct (Py.is_space c && String.eqb (Py.rstrip r) ""); reflexivity.
Qed.

Lemma lstrip_head (s : string) : head_not_space (Py.lstrip s).
Proof.
  induction s as [|c r IH]; simpl; [exact I|].
  destruct (Py.is_space c) eqn:E; [exact IH | exact E].
Qed.

Lemma rstrip_head (s : string) : head_not_space s -> head_not_space (Py.rstrip s).
Proof.
  destruct s as [|c r]; [trivial|]. intros Hc. rewrite rstrip_cons.
  destruct (_ && _); [exact I | exact Hc].
Qed.

Lemma lower_head (s : string) : head_not_space s -> head_not_space (Py.lower s).
Proof.
  destruct s as [|c r]; [trivial|]. simpl. now rewrite lower_char_space.
Qed.

Lemma sub_spaces_head (s : string) :
  head_not_space s -> Py.sub_spaces false s = Py.sub_spaces true s.
Proof. destruct s as [|c r]; [reflexivity|]. simpl. now intros ->. Qed.

(** Collapsing the white space of a lower-case string that does not end in
    white space gives a string in normal form. *)
Lemma sub_spaces_normal (u : string) (b : bool) :
  Py.rstrip u = u -> Py.lower u = u -> u <> "" \/ b = false ->
  normal_from b (Py.sub_spaces b u) = true.
Proof.
  revert b. induction u as [|c r IH]; intros b Hr Hl Hne.
  - destruct Hne as [Hne | ->]; [contradiction | reflexivity].
  - rewrite rstrip_cons in Hr. simpl in Hl. injection Hl as Hc Hl.
    destruct (Py.is_space c) eqn:Ec; simpl in Hr.
    + destruct (String.eqb (Py.rstrip r) "") eqn:Ee; [discriminate|].
      injection Hr as Hr.
      assert (r <> "") as Hrne.
      { intros ->. discriminate. }
      simpl. rewrite Ec. destruct b.
      * apply IH; auto.
      * simpl. apply IH; auto.
    + injection Hr as Hr. simpl. rewrite Ec. simpl.
      rewrite Ec, Hc, Ascii.eqb_refl. simpl. apply IH; auto.
Qed.

Lemma normal_from_nonempty (b : bool) (s : string) :
  normal_from b s = true -> s <> "" \/ b = false.
Proof. destruct s; simpl; [destruct b; auto; discriminate | left; discriminate]. Qed.

Lemma normal_from_rstrip (b : bool) (s : string) :
  normal_from b s = true -> Py.rstrip s = s.
Proof.
  revert b. induction s as [|c r IH]; intros b Hn; [reflexivity|].
  rewrite rstrip_cons. simpl in Hn.
  destruct (Py.is_space c).
  - apply andb_true_iff in Hn as [_ Hn]. rewrite (IH _ Hn).
    destruct (normal_from_nonempty _ _ Hn) as [Hne | ?]; [|discriminate].
    destruct r; [contradiction | reflexivity].
  - apply andb_true_iff in Hn as [_ Hn]. now rewrite (IH _ Hn).
Qed.

Lemma normal_from_lower (b : bool) (s : string) :
  normal_from b s = true -> Py.lower s = s.
Proof.
  revert b. induction s as [|c r IH]; intros b Hn; [reflexivity|].
  simpl in *. destruct (Py.is_space c).
  - apply andb_true_iff in Hn as [Hc Hn]. apply andb_true_iff in Hc as [_ Hc].
    apply Ascii.eqb_eq in Hc. subst c. now rewrite (IH _ Hn).
  - apply andb_true_iff in Hn as [Hc Hn]. apply Ascii.eqb_eq in Hc.
    now rewrite Hc, (IH _ Hn).
Qed.

Lemma normal_from_sub_spaces (b : bool) (s : string) :
  normal_from b s = true -> Py.sub_spaces b s = s.
Proof.
  revert b. induction s as [|c r IH]; intros b Hn; [reflexivity|].
  simpl in *. destruct (Py.is_space c).
  - apply andb_true_iff in Hn as [Hc Hn]. apply andb_true_iff in Hc as [Hb Hc].
    apply Ascii.eqb_eq in Hc. subst c. destruct b; [discriminate|].
    now rewrite (IH _ Hn).
  - apply andb_true_iff in Hn as [_ Hn]. now rewrite (IH _ Hn).
Qed.

Lemma normal_from_head (s : string) : normal_from true s = true -> head_not_space s.
Proof.
  destruct s as [|c r]; simpl; [trivial|].
  destruct (Py.is_space c); [discriminate | reflexivity].
Qed.

Lemma normalize_text_normal (s : string) :
  normal_form (Py.sub_spaces false (Py.lower (Py.strip s))).
Proof.
  set (u := Py.lower (Py.strip s)).
  assert (head_not_space u) as Hh.
  { apply lower_head, rstrip_head, lstrip_head. }
  assert (Py.rstrip u = u) as Hr.
  { unfold u, Py.strip. now rewrite rstrip_lower, rstrip_idem. }
  assert (Py.lower u = u) as Hl by apply lower_idem.
  destruct (String.eqb_spec u "") as [-> | Hne]; [now left|].
  right. rewrite (sub_spaces_head u Hh). apply sub_spaces_normal; auto.
Qed.

Lemma normalize_text_fixed (w : string) :
  normal_form w -> Py.sub_spaces false (Py.lower (Py.strip w)) = w.
Proof.
  intros [-> | Hn]; [reflexivity|].
  pose proof (normal_from_head w Hn) as Hh.
  assert (Py.lstrip w = w) as Hls.
  { destruct w as [|c r]; [reflexivity|]. simpl in *. now rewrite Hh. }
  unfold Py.strip.
  rewrite Hls, (normal_from_rstrip _ _ Hn), (normal_from_lower _ _ Hn).
  rewrite (sub_spaces_head w Hh). now apply normal_from_sub_spaces.
Qed.

Section NormalizerTheorems.
Context `{PyRuntime}.

(** X1: the result of [normalize_description] is in normal form: empty, or
    free of upper-case letters, with single blanks as its only white space
    and none at either end. *)
Theorem normalize_description_normal (desc : pyval) :
  normal_form (normalize_description desc).
Proof.
  unfold normalize_description.
  destruct (negb (Py.truthy desc)); [now left | apply normalize_text_normal].
Qed.

(** X2: normalising is idempotent: a description that is already the result
    of [normalize_description] is left as it is. *)
Theorem normalize_description_idempotent (desc : pyval) :
  normalize_description (PStr (normalize_description desc))
  = normalize_description desc.
Proof.
  assert (normal_form (normalize_description desc)) as Hn.
  { unfold normalize_description.
    destruct (negb (Py.truthy desc)); [now left | apply normalize_text_normal]. }
  set (w := normalize_description desc) in *.
  unfold normalize_description at 1. simpl.
  destruct (String.eqb_spec w "") as [-> | Hne]; [reflexivity|].
  simpl. now apply normalize_text_fixed.
Qed.

End NormalizerTheorems.

(** ** Reflexivity and symmetry of the field tests *)

Lemma prefix_refl (s : string) : String.prefix s s = true.
Proof.
  induction s as [|c r IH]; [reflexivity|].
  simpl. destruct (ascii_dec c c); [exact IH | contradiction].
Qed.

Lemma contains_unfold (needle hay : string) :
  Py.contains needle hay
  = String.prefix needle hay
    || match hay with
       | EmptyString => false
       | String _ r => Py.contains needle r
       end.
Proof. destruct hay; reflexivity. Qed.

Lemma contains_refl (s : string) : Py.contains s s = true.
Proof. now rewrite contains_unfold, prefix_refl. Qed.

Lemma py_eq_refl (v : pyval) : Py.eq v v = true.
Proof.
  destruct v; simpl; auto using Z.eqb_refl, Qeq_bool_refl, String.eqb_refl.
Qed.

Lemma py_eq_sym (a b : pyval) : Py.eq a b = Py.eq b a.
Proof.
  destruct a, b; simpl; auto using Z.eqb_sym, Qeq_bool_comm, String.eqb_sym.
Qed.

Section FieldTests.
Context `{PyRuntime}.

Lemma compare_values_swap (a b : pyval) (t : Q) :
  compare_values a b t = compare_values b a t.
Proof.
  unfold compare_values.
  rewrite (andb_comm (Py.is_none a)), (orb_comm (Py.is_none a)).
  destruct (Py.is_none b && Py.is_none a); [reflexivity|].
  destruct (Py.is_none b || Py.is_none a); [reflexivity|].
  destruct (Py.float a) as [x|], (Py.float b) as [y|];
    auto using Qltb_abs_swap, String.eqb_sym.
Qed.

(** A null, an integer or a finite float compares equal to itself. *)
Lemma compare_values_self (a : pyval) (t : Q) :
  (0 < t)%Q -> null_or_number a = true -> compare_values a a t = true.
Proof.
  intros Ht Ha.
  assert (forall x, Py.Qltb (Qabs (x - x)) t = true) as Hx.
  { intros x. apply Qltb_lt.
    assert (Qabs (x - x) == 0)%Q as ->; [|exact Ht].
    assert (x - x == 0)%Q as -> by ring. reflexivity. }
  unfold compare_values.
  destruct a as [|z|q|s]; [reflexivity| | |discriminate Ha];
    cbn [Py.is_none andb orb Py.float]; apply Hx.
Qed.

(** X3: with a positive tolerance a null, an integer and a finite float
    each compare equal to themselves (a text need not: the text [nan] reads
    as not-a-number, which differs from itself), and with a tolerance that
    is zero or negative no two numbers compare equal, not even a number and
    itself. *)
Theorem compare_values_reflexive_iff_positive (t : Q) :
  ((0 < t)%Q -> forall a, null_or_number a = true ->
     compare_values a a t = true)
  /\ ((t <= 0)%Q -> forall a b x y,
        Py.float a = Some x -> Py.float b = Some y ->
        compare_values a b t = false).
Proof.
  split.
  - intros Ht a Ha. now apply compare_values_self.
  - intros Ht a b x y Hx Hy. unfold compare_values.
    rewrite (float_none_inv a x Hx), (float_none_inv b y Hy).
    cbn [andb orb]. rewrite Hx, Hy. unfold Py.Qltb.
    apply negb_false_iff, Qle_bool_iff.
    apply (Qle_trans _ 0); [exact Ht | apply Qabs_nonneg].
Qed.

Lemma desc_match_self (a : pyval) : desc_match a a = true.
Proof. unfold desc_match. now rewrite contains_refl. Qed.

Lemma field_agreement_swap (e p : LineItem) :
  field_agreement e p = field_agreement p e.
Proof.
  unfold field_agreement, desc_match. f_equal;
    auto using compare_values_swap, String.eqb_sym, py_eq_sym, orb_comm.
Qed.

(** X4: the score of a pair does not depend on which of the two items comes
    from the Excel side: the eight flags, hence the score, are the same when
    the two items are swapped. *)
Theorem score_symmetric (e p : LineItem) :
  field_agreement e p = field_agreement p e /\ score e p = score p e.
Proof.
  split; [apply field_agreement_swap|].
  unfold score. now rewrite field_agreement_swap.
Qed.

Lemma field_agreement_self (e : LineItem) :
  finite_fields e = true -> all_agree (field_agreement e e) = true.
Proof.
  unfold finite_fields. rewrite !andb_true_iff.
  intros [[[Hq Hw] Hu] Ht].
  unfold all_agree, field_agreement. simpl.
  rewrite !compare_values_self by (reflexivity || assumption).
  now rewrite desc_match_self, !String.eqb_refl, py_eq_refl.
Qed.

Lemma score_self_8 (e : LineItem) : finite_fields e = true -> score e e = 8.
Proof. intros He. now apply score_of_8_all_agree, field_agreement_self. Qed.

(** X5: a line item whose quantity, weight, unit value and total value are
    nulls or finite numbers agrees with itself on all eight fields: its
    score against itself is 8. *)
Theorem score_self (e : LineItem) :
  finite_fields e = true ->
  all_agree (field_agreement e e) = true /\ score e e = 8.
Proof.
  intros He. split; [now apply field_agreement_self | now apply score_self_8].
Qed.

End FieldTests.

Lemma score_self_witness :
  finite_fields SampleRow.item = true
  /\ all_agree
       (@field_agreement DecimalRuntime.runtime SampleRow.item SampleRow.item)
     = true
  /\ @score DecimalRuntime.runtime SampleRow.item SampleRow.item = 8.
Proof.
  split; [reflexivity|].
  apply (@score_self DecimalRuntime.runtime SampleRow.item). reflexivity.
Defined.

(** ** The matcher on lists without candidates, and on a list against itself *)

Section MatcherEdges.
Context `{PyRuntime}.

Lemma unclaimed_none_claimed (l : list LineItem) : (unclaimed ∅ l).*2 = l.
Proof.
  unfold unclaimed, enumerate. generalize 0.
  induction l as [|x l IH]; intros n; [reflexivity|].
  simpl. rewrite filter_cons.
  destruct (decide ((n, x).1 ∉ (∅ : gset nat))) as [_ | Hin].
  - simpl. now rewrite IH.
  - exfalso. apply Hin, not_elem_of_empty.
Qed.

Lemma unclaimed_all_claimed (M : gset nat) (l : list LineItem) :
  (forall j, j < length l -> j ∈ M) -> unclaimed M l = [].
Proof.
  intros Hall. apply elem_of_nil_inv. intros [j x] Hin.
  apply list_elem_of_filter in Hin as [Hfree Hin].
  apply enumerate_elem, lookup_lt_Some in Hin. apply Hfree, Hall, Hin.
Qed.

(** An iteration whose candidates all score below 4 changes nothing. *)
Lemma match_excel_item_low (pdf_items : list LineItem) (st : MatcherState)
    (i : nat) (e : LineItem) :
  i ∉ matched_excel_indices st ->
  (forall j p, pdf_items !! j = Some p -> score e p < 4) ->
  match_excel_item pdf_items st (i, e) = st.
Proof.
  intros Hi Hlow. unfold match_excel_item.
  rewrite scan_pdf_no_perfect.
  2:{ intros j p Hin _. apply enumerate_elem, Hlow in Hin. lia. }
  destruct (decide (i ∈ matched_excel_indices st)); [contradiction|].
  rewrite track_best_keep; [reflexivity|].
  intros j p Hin _. right. now apply enumerate_elem, Hlow in Hin.
Qed.

Lemma state_after_low (excel_items pdf_items : list LineItem) (k : nat) :
  (forall e p, e ∈ excel_items -> p ∈ pdf_items -> score e p < 4) ->
  k <= length excel_items ->
  state_after excel_items pdf_items k = init_state excel_items pdf_items.
Proof.
  intros Hlow. induction k as [|k IH]; intros Hk; [reflexivity|].
  destruct (lookup_lt_is_Some_2 excel_items k ltac:(lia)) as [e He].
  rewrite (state_after_S _ _ _ _ He), IH by lia.
  apply match_excel_item_low; [apply not_elem_of_empty|].
  intros j p Hp. apply Hlow; apply list_elem_of_lookup; eauto.
Qed.

(** X6: when every Excel item scores below 4 against every PDF item, nothing
    is paired: no perfect match, no partial match, and both lists come
    back whole, in their order, as unmatched. *)
Theorem no_pairing_below_threshold (excel_items pdf_items : list LineItem) :
  (forall e p, e ∈ excel_items -> p ∈ pdf_items -> score e p < 4) ->
  compare_line_items excel_items pdf_items
  = {| total_excel := length excel_items;
       total_pdf := length pdf_items;
       perfect_matches := 0;
       mismatches := [];
       unmatched_excel := excel_items;
       unmatched_pdf := pdf_items |}.
Proof.
  intros Hlow. unfold compare_line_items, final_state.
  rewrite matching_state_after, (state_after_low _ _ _ Hlow) by lia.
  unfold collect_unmatched. simpl. now rewrite !unclaimed_none_claimed.
Qed.

(** X7: with an empty PDF list every Excel item is unmatched, and with an
    empty Excel list every PDF item is unmatched; nothing is raised. *)
Theorem compare_line_items_empty_side (items : list LineItem) :
  compare_line_items items []
  = {| total_excel := length items; total_pdf := 0; perfect_matches := 0;
       mismatches := []; unmatched_excel := items; unmatched_pdf := [] |}
  /\ compare_line_items [] items
     = {| total_excel := 0; total_pdf := length items; perfect_matches := 0;
          mismatches := []; unmatched_excel := []; unmatched_pdf := items |}.
Proof.
  split.
  - unfold compare_line_items, final_state.
    rewrite matching_state_after, state_after_low; [|intros e p _ Hp|lia].
    + unfold collect_unmatched. simpl. now rewrite unclaimed_none_claimed.
    + now apply elem_of_nil in Hp.
  - unfold compare_line_items, final_state, matching, collect_unmatched. simpl.
    now rewrite unclaimed_none_claimed.
Qed.

(** The state of a list matched against itself after [k] iterations. *)
Lemma state_after_self (items : list LineItem) (k : nat) :
  Forall (fun item => finite_fields item = true) items ->
  k <= length items ->
  let st := state_after items items k in
  results st
  = {| total_excel := length items; total_pdf := length items;
       perfect_matches := k; mismatches := [];
       unmatched_excel := []; unmatched_pdf := [] |}
  /\ (forall j, j ∈ matched_pdf_indices st <-> j < k)
  /\ (forall j, j ∈ matched_excel_indices st <-> j < k)
  /\ perfect_pairs st = (fun i => (i, i)) <$> seq 0 k.
Proof.
  intros Hfin. induction k as [|k IH]; intros Hk; cbv zeta.
  - split; [reflexivity|].
    split; [|split; [|reflexivity]];
      intros j; (split; [intros Hin; now apply not_elem_of_empty in Hin | lia]).
  - destruct (lookup_lt_is_Some_2 items k ltac:(lia)) as [e He].
    destruct (IH ltac:(lia)) as (Hres & Hpdf & Hex & Hpairs).
    rewrite (state_after_S _ _ _ _ He).
    set (st := state_after items items k) in *.
    assert (match_excel_item items st (k, e) = claim_perfect st k k) as ->.
    { unfold match_excel_item. rewrite (enumerate_split _ _ _ He).
      rewrite (scan_pdf_first_perfect k e _ _ k e st init_best).
      - destruct (decide (k ∈ matched_excel_indices (claim_perfect st k k)))
          as [|Hout]; [reflexivity|].
        exfalso. apply Hout. simpl. apply elem_of_union_r, elem_of_singleton.
        reflexivity.
      - intros j' p' Hin Hfree. exfalso. apply Hfree, Hpdf.
        apply enumerate_elem, lookup_take_Some in Hin. tauto.
      - rewrite Hpdf. lia.
      - apply score_self_8. exact (Forall_lookup_1 _ _ _ _ Hfin He). }
    rewrite seq_S, fmap_app.
    simpl. rewrite Hres. simpl. split; [f_equal; lia|].
    split; [|split].
    + intros j. rewrite elem_of_union, elem_of_singleton, Hpdf. lia.
    + intros j. rewrite elem_of_union, elem_of_singleton, Hex. lia.
    + now rewrite Hpairs.
Qed.

Lemma self_results (items : list LineItem) :
  Forall (fun item => finite_fields item = true) items ->
  compare_line_items items items
  = {| total_excel := length items; total_pdf := length items;
       perfect_matches := length items; mismatches := [];
       unmatched_excel := []; unmatched_pdf := [] |}.
Proof.
  intros Hfin.
  destruct (state_after_self items (length items) Hfin (Nat.le_refl _))
    as (Hres & Hpdf & Hex & _).
  unfold compare_line_items, final_state. rewrite matching_state_after.
  unfold collect_unmatched. simpl. rewrite Hres. simpl.
  rewrite (unclaimed_all_claimed _ items (fun j Hj => proj2 (Hex j) Hj)).
  rewrite (unclaimed_all_claimed _ items (fun j Hj => proj2 (Hpdf j) Hj)).
  reflexivity.
Qed.

(** X8: a list of items whose quantities, weights and values are nulls or
    finite numbers, reconciled against itself, gives only perfect matches:
    as many as it has items, no partial match and nothing unmatched, even
    when it holds the same item several times; item [k] is paired with item
    [k]. *)
Theorem compare_line_items_self (items : list LineItem) :
  Forall (fun item => finite_fields item = true) items ->
  compare_line_items items items
  = {| total_excel := length items; total_pdf := length items;
       perfect_matches := length items; mismatches := [];
       unmatched_excel := []; unmatched_pdf := [] |}
  /\ perfect_pairs (final_state items items)
     = (fun i => (i, i)) <$> seq 0 (length items).
Proof.
  intros Hfin. split; [now apply self_results|].
  unfold final_state, collect_unmatched. simpl. rewrite matching_state_after.
  now destruct (state_after_self items (length items) Hfin (Nat.le_refl _))
    as (_ & _ & _ & Hpairs).
Qed.

End MatcherEdges.

Lemma compare_line_items_self_witness :
  let items := [Sample.coin; Sample.note; Sample.coin] in
  @compare_line_items DecimalRuntime.runtime items items
  = {| total_excel := 3; total_pdf := 3; perfect_matches := 3;
       mismatches := []; unmatched_excel := []; unmatched_pdf := [] |}
  /\ perfect_pairs (@final_state DecimalRuntime.runtime items items)
     = [(0, 0); (1, 1); (2, 2)].
Proof.
  apply (@compare_line_items_self DecimalRuntime.runtime
           [Sample.coin; Sample.note; Sample.coin]).
  repeat constructor.
Defined.

(** ** Order and size of the result *)

Section MatcherOrder.
Context `{PyRuntime}.

Lemma enumerate_from_fmap_snd (n : nat) (l : list LineItem) :
  (enumerate_from n l).*2 = l.
Proof.
  revert n. induction l as [|x l IH]; intros n; [reflexivity|].
  simpl. now rewrite IH.
Qed.

Lemma unclaimed_sublist (M : gset nat) (l : list LineItem) :
  (unclaimed M l).*2 `sublist_of` l.
Proof.
  unfold unclaimed.
  rewrite <- (enumerate_from_fmap_snd 0 l) at 2.
  apply fmap_sublist, sublist_filter.
Qed.

(** The Excel sides of the partial matches recorded after [k] iterations
    are taken, in order, from the first [k] Excel items. *)
Lemma mismatches_sublist (excel_items pdf_items : list LineItem) (k : nat) :
  k <= length excel_items ->
  (excel_item <$> mismatches (results (state_after excel_items pdf_items k)))
    `sublist_of` take k excel_items.
Proof.
  induction k as [|k IH]; intros Hk; [apply sublist_nil_l|].
  destruct (lookup_lt_is_Some_2 excel_items k ltac:(lia)) as [e He].
  specialize (IH ltac:(lia)).
  pose proof (matcher_inv_state_after excel_items pdf_items k ltac:(lia)) as Hinv.
  pose proof (matcher_inv_fresh _ _ _ k _ Hinv (Nat.le_refl k)) as Hfresh.
  rewrite (state_after_S _ _ _ _ He), (take_S_r _ _ _ He).
  destruct (match_excel_item_cases pdf_items _ k e Hfresh)
    as [(j & p & _ & _ & ->) | [(j & p & _ & _ & ->) | ->]]; simpl.
  - now apply sublist_inserts_r.
  - rewrite fmap_app. now apply sublist_app.
  - now apply sublist_inserts_r.
Qed.

(** X9: the result keeps the input order: the unmatched Excel items are a
    subsequence of the Excel list, the unmatched PDF items a subsequence of
    the PDF list, and the Excel sides of the partial matches a subsequence
    of the Excel list. *)
Theorem compare_line_items_keeps_order (excel_items pdf_items : list LineItem) :
  let r := compare_line_items excel_items pdf_items in
  unmatched_excel r `sublist_of` excel_items
  /\ unmatched_pdf r `sublist_of` pdf_items
  /\ (excel_item <$> mismatches r) `sublist_of` excel_items.
Proof.
  intros r.
  pose proof (matcher_inv_matching excel_items pdf_items) as Hinv.
  destruct (inv_unmatched _ _ _ _ Hinv) as [Hue Hup].
  unfold r, compare_line_items, final_state, collect_unmatched. simpl.
  rewrite Hue, Hup. simpl.
  split; [apply unclaimed_sublist|]. split; [apply unclaimed_sublist|].
  rewrite matching_state_after.
  rewrite <- (take_ge excel_items (length excel_items)) at 3 by lia.
  now apply mismatches_sublist.
Qed.

(** X10: the number of pairs, perfect and partial together, exceeds neither
    the number of Excel items nor the number of PDF items. *)
Theorem matched_pairs_bounded (excel_items pdf_items : list LineItem) :
  let r := compare_line_items excel_items pdf_items in
  perfect_matches r + length (mismatches r) <= length excel_items
  /\ perfect_matches r + length (mismatches r) <= length pdf_items.
Proof.
  intros r.
  pose proof (matcher_inv_matching excel_items pdf_items) as Hinv.
  assert (perfect_matches r + length (mismatches r)
          = length (claimed_pairs (matching excel_items pdf_items))) as ->.
  { unfold claimed_pairs. rewrite length_app.
    rewrite <- (inv_count _ _ _ _ Hinv).
    now rewrite <- (Forall2_length _ _ _ (inv_partial _ _ _ _ Hinv)). }
  split.
  - rewrite <- (length_fmap fst).
    rewrite <- (unclaimed_length _ excel_items _ (inv_excel_nodup _ _ _ _ Hinv)
                  (inv_excel_set _ _ _ _ Hinv)); [lia|].
    intros i Hi. apply list_elem_of_fmap in Hi as ([a b] & -> & Hin).
    now destruct (inv_range _ _ _ _ Hinv a b Hin) as (_ & ? & _).
  - rewrite <- (length_fmap snd).
    rewrite <- (unclaimed_length _ pdf_items _ (inv_pdf_nodup _ _ _ _ Hinv)
                  (inv_pdf_set _ _ _ _ Hinv)); [lia|].
    intros i Hi. apply list_elem_of_fmap in Hi as ([a b] & -> & Hin).
    now destruct (inv_range _ _ _ _ Hinv a b Hin) as (_ & _ & ?).
Qed.

End MatcherOrder.

Lemma no_pairing_below_threshold_witness :
  @compare_line_items DecimalRuntime.runtime [Sample.note] [Sample.coin]
  = {| total_excel := 1; total_pdf := 1; perfect_matches := 0;
       mismatches := []; unmatched_excel := [Sample.note];
       unmatched_pdf := [Sample.coin] |}.
Proof.
  apply (@no_pairing_below_threshold DecimalRuntime.runtime
           [Sample.note] [Sample.coin]).
  intros e p He Hp.
  apply list_elem_of_singleton in He. apply list_elem_of_singleton in Hp.
  subst e p. vm_compute. lia.
Defined.

(** ** When the report is produced *)

Lemma blocks_is_Some {A : Type} (f : nat -> A -> option (list string))
    (ok : A -> bool) (start : nat) (l : list A) :
  (forall idx x, is_Some (f idx x) <-> ok x = true) ->
  is_Some (blocks f start l) <-> Forall (fun x => ok x = true) l.
Proof.
  intros Hf. revert start. induction l as [|x l IH]; intros start; simpl.
  - split; [constructor | eauto].
  - rewrite Forall_cons, <- (IH (S start)), <- (Hf start x).
    destruct (f start x), (blocks f (S start) l); split;
      try (intros [? ?]); try (intros [? E]; discriminate E); eauto;
      match goal with H : is_Some None |- _ => destruct H; discriminate end.
Qed.

Section ReportProduced.
Context `{PyRuntime}.

Lemma item_lines_is_Some (item : LineItem) :
  is_Some (item_lines item) <-> has_text item = true.
Proof.
  unfold item_lines, description80, has_text.
  destruct (description item); split; intros E; eauto;
    try discriminate E; destruct E; discriminate.
Qed.

Lemma mismatch_lines_is_Some (idx : nat) (m : Mismatch) :
  is_Some (mismatch_lines idx m)
  <-> has_text (excel_item m) && has_text (pdf_item m) = true.
Proof.
  rewrite andb_true_iff, <- !item_lines_is_Some. unfold mismatch_lines.
  destruct (item_lines (excel_item m)), (item_lines (pdf_item m)); split;
    try (intros [? ?]); eauto;
    try (intros [? E]; discriminate E);
    match goal with H : is_Some None |- _ => destruct H; discriminate end.
Qed.

Lemma unmatched_lines_is_Some (label : string) (idx : nat) (item : LineItem) :
  is_Some (unmatched_lines label idx item) <-> has_text item = true.
Proof.
  rewrite <- item_lines_is_Some. unfold unmatched_lines.
  destruct (item_lines item); split; eauto; intros [? E]; discriminate E.
Qed.

Lemma mismatch_section_is_Some (s : Results) :
  is_Some (mismatch_section s)
  <-> Forall (fun m => has_text (excel_item m) && has_text (pdf_item m) = true)
        (mismatches s).
Proof.
  rewrite <- (blocks_is_Some mismatch_lines _ 1) by apply mismatch_lines_is_Some.
  unfold mismatch_section. destruct (mismatches s) as [|m l]; simpl.
  - split; eauto.
  - destruct (mismatch_lines 1 m), (blocks mismatch_lines 2 l); split; eauto;
      intros [? E]; discriminate E.
Qed.

Lemma unmatched_section_is_Some (title label : string) (items : list LineItem) :
  is_Some (unmatched_section title label items)
  <-> Forall (fun it => has_text it = true) items.
Proof.
  rewrite <- (blocks_is_Some (unmatched_lines label) _ 1)
    by apply unmatched_lines_is_Some.
  unfold unmatched_section. destruct items as [|it l]; simpl.
  - split; eauto.
  - destruct (unmatched_lines label 1 it), (blocks (unmatched_lines label) 2 l);
      split; eauto; intros [? E]; discriminate E.
Qed.

Lemma is_Some_None_inv {A : Type} : ~ is_Some (@None A).
Proof. intros [x E]. discriminate E. Qed.

Lemma detail_lines_is_Some (s : Results) :
  is_Some (detail_lines s)
  <-> Forall (fun it => has_text it = true) (printed_items s).
Proof.
  unfold printed_items. rewrite !Forall_app, !Forall_fmap.
  assert (Forall (fun m => has_text (excel_item m) && has_text (pdf_item m) = true)
            (mismatches s)
          <-> Forall ((fun it => has_text it = true) ∘ excel_item) (mismatches s)
              /\ Forall ((fun it => has_text it = true) ∘ pdf_item)
                   (mismatches s)) as Hboth.
  { rewrite !Forall_forall. unfold compose. split.
    - intros Hall. split; intros m Hm; specialize (Hall m Hm);
        apply andb_true_iff in Hall; tauto.
    - intros [H1 H2] m Hm. apply andb_true_iff. auto. }
  pose proof (mismatch_section_is_Some s) as Hm. rewrite Hboth in Hm.
  unfold detail_lines.
  match goal with
  | |- context [unmatched_section ?t1 ?l1 (unmatched_excel s)] =>
      pose proof (unmatched_section_is_Some t1 l1 (unmatched_excel s)) as Hue;
      set (oue := unmatched_section t1 l1 (unmatched_excel s)) in *
  end.
  match goal with
  | |- context [unmatched_section ?t2 ?l2 (unmatched_pdf s)] =>
      pose proof (unmatched_section_is_Some t2 l2 (unmatched_pdf s)) as Hup;
      set (oup := unmatched_section t2 l2 (unmatched_pdf s)) in *
  end.
  destruct (mismatch_section s) as [mm|], oue as [ue|], oup as [up|];
    (split;
     [ intros Hs; try (now apply is_Some_None_inv in Hs);
       destruct (proj1 Hm ltac:(eauto)) as [Ha Hb];
       pose proof (proj1 Hue ltac:(eauto)) as Hc;
       pose proof (proj1 Hup ltac:(eauto)) as Hd; auto
     | intros (Ha & Hb & Hc & Hd); eauto; exfalso;
       first [ exact (is_Some_None_inv (proj2 Hm (conj Ha Hb)))
             | exact (is_Some_None_inv (proj2 Hue Hc))
             | exact (is_Some_None_inv (proj2 Hup Hd)) ] ]).
Qed.

Lemma run_report_is_Some (now : string) (excel_data pdf_data : Extracted) :
  is_Some (run_report now excel_data pdf_data)
  <-> is_Some (detail_lines
                 (compare_line_items (line_items excel_data)
                    (line_items pdf_data))).
Proof.
  unfold run_report, generate_report.
  destruct (report_lines_run now excel_data pdf_data)
    as (cn & pos & _ & _ & _ & _ & _ & ->).
  destruct (detail_lines _); simpl; split; eauto; intros [? E]; discriminate E.
Qed.

End ReportProduced.

Section ReportProducedTheorems.
Context `{PyRuntime}.

Lemma unclaimed_elem (M : gset nat) (l : list LineItem) (it : LineItem) :
  it ∈ (unclaimed M l).*2 -> it ∈ l.
Proof.
  intros Hin. apply list_elem_of_fmap in Hin as ([j x] & -> & Hin).
  apply list_elem_of_filter in Hin as [_ Hin].
  apply enumerate_elem in Hin. apply list_elem_of_lookup. eauto.
Qed.

(** Every printed item is one of the input items. *)
Lemma printed_items_from_input (excel_items pdf_items : list LineItem)
    (it : LineItem) :
  it ∈ printed_items (compare_line_items excel_items pdf_items) ->
  it ∈ excel_items \/ it ∈ pdf_items.
Proof.
  pose proof (matcher_inv_matching excel_items pdf_items) as Hinv.
  destruct (inv_unmatched _ _ _ _ Hinv) as [Hue Hup].
  unfold printed_items, compare_line_items, final_state, collect_unmatched.
  simpl. rewrite Hue, Hup. simpl.
  rewrite !elem_of_app. intros [Hin | [Hin | [Hin | Hin]]].
  - apply list_elem_of_fmap in Hin as (m & -> & Hm).
    destruct (Forall2_elem_l _ _ _ m (inv_partial _ _ _ _ Hinv) Hm)
      as ([i j] & _ & He & _).
    left. apply list_elem_of_lookup. eauto.
  - apply list_elem_of_fmap in Hin as (m & -> & Hm).
    destruct (Forall2_elem_l _ _ _ m (inv_partial _ _ _ _ Hinv) Hm)
      as ([i j] & _ & _ & Hp & _).
    right. apply list_elem_of_lookup. eauto.
  - left. now apply unclaimed_elem in Hin.
  - right. now apply unclaimed_elem in Hin.
Qed.

(** X11: [generate_report] returns a text exactly when the description of
    every item it prints (the two sides of each partial match and the
    unmatched items) is text; the descriptions of perfectly matched items
    play no part. Otherwise slicing the description raises. *)
Theorem report_produced_iff (now : string) (excel_data pdf_data : Extracted) :
  is_Some (run_report now excel_data pdf_data)
  <-> Forall (fun it => has_text it = true)
        (printed_items
           (compare_line_items (line_items excel_data) (line_items pdf_data))).
Proof.
  rewrite run_report_is_Some.
  apply detail_lines_is_Some.
Qed.

(** X12: when the description of every extracted line item is text, as both
    extractors make it, the report is produced. *)
Theorem report_produced_for_text (now : string)
    (excel_data pdf_data : Extracted) :
  (forall it, it ∈ line_items excel_data \/ it ∈ line_items pdf_data ->
     has_text it = true) ->
  is_Some (run_report now excel_data pdf_data).
Proof.
  intros Htext. rewrite run_report_is_Some, detail_lines_is_Some.
  apply Forall_forall. intros it Hin.
  now apply Htext, printed_items_from_input.
Qed.

(** X13: two sources with the same list of line items, whose quantities,
    weights and values are nulls or finite numbers, always get a report,
    whatever the descriptions are: nothing is printed item by item. *)
Theorem report_produced_for_equal_lists (now : string) (c1 p1 c2 p2 : pyval)
    (items : list LineItem) :
  Forall (fun item => finite_fields item = true) items ->
  is_Some (run_report now
             {| contact_name := c1; purpose_of_shipment := p1;
                line_items := items |}
             {| contact_name := c2; purpose_of_shipment := p2;
                line_items := items |})
  /\ printed_items (compare_line_items items items) = [].
Proof.
  intros Hfin.
  assert (printed_items (compare_line_items items items) = []) as Hnone.
  { now rewrite self_results. }
  split; [|exact Hnone].
  rewrite run_report_is_Some, detail_lines_is_Some. simpl.
  rewrite Hnone. constructor.
Qed.

(** X14: the verdict of the dashboard and the banner of the report agree:
    after [verify] the dashboard always has a verdict, and when the report
    is produced it ends with the banner of success followed by an empty
    line if the verdict is a pass, and with the banner of failure followed
    by an empty line otherwise. *)
Theorem dashboard_agrees_with_report (now : string)
    (excel_data pdf_data : Extracted) :
  exists verdict,
    overall_pass (verify (init now) excel_data pdf_data) = Some verdict
    /\ forall lines,
         report_lines (verify (init now) excel_data pdf_data) = Some lines ->
         exists body,
           lines = body ++ (if verdict then pass_banner else fail_banner) ++ [""].
Proof.
  destruct (report_lines_run now excel_data pdf_data)
    as (cn & pos & Ecn & Epos & _ & _ & _ & Hrun).
  set (r := compare_line_items (line_items excel_data) (line_items pdf_data)) in *.
  exists (contact_ok cn && purpose_ok pos && items_ok r). split.
  - unfold overall_pass. rewrite Ecn, Epos. reflexivity.
  - intros lines Hlines. rewrite Hrun in Hlines.
    destruct (detail_lines r) as [details|]; [|discriminate].
    injection Hlines as <-.
    exists (head_lines now cn pos r ++ details ++ final_summary_lines cn pos r).
    now rewrite <- !app_assoc.
Qed.

End ReportProducedTheorems.

Lemma report_produced_for_text_witness :
  is_Some (@run_report DecimalRuntime.runtime "2026-01-01 10:00:00"
             {| contact_name := PNone; purpose_of_shipment := PNone;
                line_items := [Sample.note; Sample.coin] |}
             {| contact_name := PNone; purpose_of_shipment := PNone;
                line_items := [Sample.coin55] |}).
Proof.
  apply (@report_produced_for_text DecimalRuntime.runtime).
  simpl. intros it [Hin | Hin].
  - apply elem_of_cons in Hin as [-> | Hin]; [reflexivity|].
    apply list_elem_of_singleton in Hin. now subst it.
  - apply list_elem_of_singleton in Hin. now subst it.
Defined.

Lemma report_produced_for_equal_lists_witness :
  let items := [Sample.coin; Sample.note; Sample.coin] in
  is_Some (@run_report DecimalRuntime.runtime "2026-01-01 10:00:00"
             {| contact_name := PNone; purpose_of_shipment := PNone;
                line_items := items |}
             {| contact_name := PStr "SB-SHIPPING - PRN 5789187";
                purpose_of_shipment := PNone;
                line_items := items |})
  /\ printed_items (@compare_line_items DecimalRuntime.runtime items items)
     = [].
Proof.
  apply (@report_produced_for_equal_lists DecimalRuntime.runtime).
  repeat constructor.
Defined.

(** ** The rows the tabular extractor reads *)

Section ExcelRows.
Context `{PyRuntime}.

Lemma rows_after_rank_cons (row : list pyval) (rest : list (list pyval)) :
  rows_after_rank (row :: rest)
  = match is_rank_row row with
    | Some true => Some rest
    | Some false => rows_after_rank rest
    | None => None
    end.
Proof.
  unfold is_rank_row. simpl. destruct (row !! 0) as [c|]; [|reflexivity].
  simpl. now destruct (_ && _).
Qed.

Lemma excel_item_rows_cons (row : list pyval) (rest : list (list pyval)) :
  excel_item_rows (row :: rest)
  = match is_total_row row with
    | Some true => Some []
    | Some false =>
        it ← excel_row_item row;
        items ← excel_item_rows rest;
        Some (match it with Some i => i :: items | None => items end)
    | None => None
    end.
Proof.
  simpl. destruct (is_total_row row) as [[|]|]; reflexivity.
Qed.

Lemma rows_after_rank_skip (pre : list (list pyval)) (rest : list (list pyval)) :
  Forall (fun row => is_rank_row row = Some false) pre ->
  rows_after_rank (pre ++ rest) = rows_after_rank rest.
Proof.
  induction 1 as [|row pre Hrow _ IH]; [reflexivity|].
  rewrite <- app_comm_cons, rows_after_rank_cons, Hrow. exact IH.
Qed.

Lemma excel_item_rows_stop (mid : list (list pyval)) (t : list pyval)
    (post post' : list (list pyval)) :
  is_total_row t = Some true ->
  excel_item_rows (mid ++ t :: post) = excel_item_rows (mid ++ t :: post').
Proof.
  intros Ht. induction mid as [|row mid IH].
  - simpl app. now rewrite !excel_item_rows_cons, Ht.
  - rewrite <- !app_comm_cons, !excel_item_rows_cons, IH. reflexivity.
Qed.

(** X15: the tabular extractor reads only the rows between the first row
    whose first cell is ['Rank'] and the first following row whose first
    cell contains ['Total']: the rows before the one and after the other
    change nothing. *)
Theorem excel_reads_between_rank_and_total
    (pre mid post : list (list pyval)) (h t : list pyval) :
  Forall (fun row => is_rank_row row = Some false) pre ->
  is_rank_row h = Some true ->
  is_total_row t = Some true ->
  excel_line_items (pre ++ h :: mid ++ t :: post)
  = excel_item_rows (mid ++ [t]).
Proof.
  intros Hpre Hh Ht. unfold excel_line_items.
  rewrite (rows_after_rank_skip pre _ Hpre), rows_after_rank_cons, Hh.
  simpl. now apply excel_item_rows_stop.
Qed.

(** X16: a sheet in which no row starts with ['Rank'] yields no line item
    (and raises nothing), an empty sheet in particular. *)
Theorem excel_without_rank_row (df : list (list pyval)) :
  Forall (fun row => is_rank_row row = Some false) df ->
  excel_line_items df = Some [].
Proof.
  intros Hdf. unfold excel_line_items.
  rewrite <- (app_nil_r df), (rows_after_rank_skip df [] Hdf). reflexivity.
Qed.

End ExcelRows.

Lemma excel_reads_between_rank_and_total_witness :
  @excel_line_items DecimalRuntime.runtime
    ([SampleRow.title_row]
     ++ SampleRow.header_row
        :: [SampleRow.item_row] ++ SampleRow.total_row :: [SampleRow.note_row])
  = @excel_item_rows DecimalRuntime.runtime
      ([SampleRow.item_row] ++ [SampleRow.total_row]).
Proof.
  apply (@excel_reads_between_rank_and_total DecimalRuntime.runtime).
  - repeat constructor.
  - reflexivity.
  - reflexivity.
Defined.

Lemma excel_without_rank_row_witness :
  @excel_line_items DecimalRuntime.runtime
    [[PStr "Invoice"]; [PNone; PStr "x"]; [PInt 1; PInt 5]]
  = Some [].
Proof.
  apply (@excel_without_rank_row DecimalRuntime.runtime).
  repeat constructor.
Defined.

(** ** The line items the tabular extractor builds *)

Section ExcelItems.
Context `{PyRuntime}.

(** What an appended line item says about its row. *)
Lemma excel_row_item_inv (row : list pyval) (it : LineItem) :
  excel_row_item row = Some (Some it) ->
  exists rk qv hs cc yr desc uv,
    row !! 0 = Some rk /\ row !! 1 = Some qv /\ row !! 2 = Some hs
    /\ row !! 4 = Some cc /\ row !! 5 = Some yr /\ row !! 6 = Some desc
    /\ excel_unit_value (guarded_cell row 11) qv = Some uv
    /\ Py.truthy rk = true /\ Py.truthy qv = true /\ Py.truthy desc = true
    /\ (exists rk', rank it = Some rk'
                    /\ (if Num.isdigit (Py.remove_char "." (Py.str rk))
                        then to_int rk else Some rk) = Some rk')
    /\ to_float qv = Some (quantity it)
    /\ when_truthy to_float (guarded_cell row 8) = Some (net_weight it)
    /\ description it = PStr (Py.strip (Py.str desc))
    /\ hs_code it = (if Py.truthy hs
                     then PStr (Py.remove_char "." (Py.str hs)) else PNone)
    /\ country_code it = (if Py.truthy cc
                          then PStr (Py.strip (Py.str cc)) else PNone)
    /\ when_truthy to_int yr = Some (year it)
    /\ unit_value it = match uv with
                       | PFloat u => if Py.truthy uv then PFloat (Num.round6 u)
                                     else PNone
                       | _ => PNone
                       end
    /\ when_truthy to_float (guarded_cell row 11) = Some (total_value it).
Proof.
  unfold excel_row_item. intros Hrow.
  destruct (row !! 0) as [rk|] eqn:E0; [|discriminate].
  destruct (row !! 1) as [qv|] eqn:E1; [|discriminate].
  destruct (row !! 2) as [hs|] eqn:E2; [|discriminate].
  destruct (row !! 3) as [cf|] eqn:E3; [|discriminate].
  destruct (row !! 4) as [cc|] eqn:E4; [|discriminate].
  destruct (row !! 5) as [yr|] eqn:E5; [|discriminate].
  destruct (row !! 6) as [desc|] eqn:E6; [|discriminate].
  cbn [mbind option_bind] in Hrow.
  destruct (excel_unit_value (guarded_cell row 11) qv) as [uv|] eqn:Eu;
    [|discriminate].
  cbn [mbind option_bind] in Hrow.
  destruct (Py.truthy rk && Py.truthy qv && Py.truthy desc) eqn:Hguard;
    [|discriminate].
  apply andb_true_iff in Hguard as [Hguard Hd].
  apply andb_true_iff in Hguard as [Hr Hq].
  destruct (if Num.isdigit (Py.remove_char "." (Py.str rk))
            then to_int rk else Some rk) as [rk'|] eqn:Erk; [|discriminate].
  cbn [mbind option_bind] in Hrow.
  destruct (to_float qv) as [q'|] eqn:Eq; [|discriminate].
  cbn [mbind option_bind] in Hrow.
  destruct (when_truthy to_float (guarded_cell row 8)) as [w'|] eqn:Ew;
    [|discriminate].
  cbn [mbind option_bind] in Hrow.
  destruct (when_truthy to_int yr) as [y'|] eqn:Ey; [|discriminate].
  cbn [mbind option_bind] in Hrow.
  destruct (when_truthy to_float (guarded_cell row 11)) as [t'|] eqn:Et;
    [|discriminate].
  cbn [mbind option_bind] in Hrow.
  injection Hrow as <-. cbn [rank quantity net_weight description hs_code
    country_code year unit_value total_value].
  exists rk, qv, hs, cc, yr, desc, uv.
  repeat (split; [reflexivity || assumption || eauto|]). reflexivity.
Qed.

Lemma remove_char_gone (c : ascii) (s : string) :
  Py.contains (String c "") (Py.remove_char c s) = false.
Proof.
  induction s as [|d r IH]; [reflexivity|].
  simpl Py.remove_char. destruct (Ascii.eqb_spec c d) as [-> | Hne]; [exact IH|].
  rewrite contains_unfold, IH. simpl.
  destruct (ascii_dec c d); [contradiction | reflexivity].
Qed.

Lemma to_float_shape (v w : pyval) :
  when_truthy to_float v = Some w -> none_or_float w.
Proof.
  unfold when_truthy, to_float. destruct (Py.truthy v).
  - destruct (Py.float v); simpl; intros E; [|discriminate].
    injection E as <-. right. eauto.
  - intros E. injection E as <-. now left.
Qed.

Lemma to_int_shape (v w : pyval) :
  when_truthy to_int v = Some w -> none_or_int w.
Proof.
  unfold when_truthy, to_int. destruct (Py.truthy v).
  - destruct (py_int v); simpl; intros E; [|discriminate].
    injection E as <-. right. eauto.
  - intros E. injection E as <-. now left.
Qed.

Lemma excel_row_item_shaped (row : list pyval) (it : LineItem) :
  excel_row_item row = Some (Some it) -> excel_shaped it.
Proof.
  intros Hrow.
  destruct (excel_row_item_inv row it Hrow)
    as (rk & qv & hs & cc & yr & desc & uv & _ & _ & _ & _ & _ & _ & _
        & Hrk & _ & _ & (rk' & Erank & Erk) & Eq & Ew & Ed & Ehs & Ecc & Ey
        & Eu & Et).
  split.
  - now rewrite Erank.
  - unfold to_float in Eq. destruct (Py.float qv); [|discriminate].
    injection Eq as <-. eauto.
  - exact (to_float_shape _ _ Ew).
  - unfold has_text. now rewrite Ed.
  - rewrite Ehs. destruct (Py.truthy hs); [|now left].
    right. eexists. split; [reflexivity | apply remove_char_gone].
  - rewrite Ecc. destruct (Py.truthy cc); [|now left]. right. eauto.
  - exact (to_int_shape _ _ Ey).
  - rewrite Eu. destruct uv as [| |u|]; [now left | now left | | now left].
    destruct (Py.truthy (PFloat u)); [right; eexists; reflexivity | now left].
  - exact (to_float_shape _ _ Et).
Qed.

Lemma excel_item_rows_shaped (rows : list (list pyval)) (items : list LineItem) :
  excel_item_rows rows = Some items -> Forall excel_shaped items.
Proof.
  revert items. induction rows as [|row rows IH]; intros items Hrows.
  - injection Hrows as <-. constructor.
  - rewrite excel_item_rows_cons in Hrows.
    destruct (is_total_row row) as [[|]|]; [| |discriminate].
    + injection Hrows as <-. constructor.
    + destruct (excel_row_item row) as [it|] eqn:Erow; [|discriminate].
      cbn [mbind option_bind] in Hrows.
      destruct (excel_item_rows rows) as [rest|]; [|discriminate].
      cbn [mbind option_bind] in Hrows. injection Hrows as <-.
      specialize (IH rest eq_refl).
      destruct it as [i|]; [|exact IH].
      constructor; [|exact IH]. now apply (excel_row_item_shaped row).
Qed.

(** X17: every line item the tabular extractor returns has the shape the
    matcher and the report rely on: a rank, a float quantity, a description
    that is text, a tariff code that is null or a text without dot, a
    country code that is null or text, a year that is null or an integer,
    and weight, unit value and total value that are null or floats. *)
Theorem excel_items_shaped (df : list (list pyval)) (items : list LineItem) :
  excel_line_items df = Some items -> Forall excel_shaped items.
Proof.
  unfold excel_line_items. intros Hdf.
  destruct (rows_after_rank df) as [rows|]; [|discriminate].
  now apply (excel_item_rows_shaped rows).
Qed.




End ExcelItems.

Lemma excel_items_shaped_witness :
  Forall excel_shaped
    (default [] (@excel_line_items DecimalRuntime.runtime
                   (Sample.sheet (PInt 10)))).
Proof.
  apply (@excel_items_shaped DecimalRuntime.runtime (Sample.sheet (PInt 10))).
  vm_compute. reflexivity.
Defined.

Example excel_item_row_extracted :
  @excel_item_rows DecimalRuntime.runtime [SampleRow.item_row; SampleRow.total_row]
  = Some [SampleRow.item].
Proof. vm_compute. reflexivity. Qed.


(** ** Header values read from the text of the document *)

Lemma prefix_cons (a b : ascii) (s t : string) :
  String.prefix (String a s) (String b t)
  = if ascii_dec a b then String.prefix s t else false.
Proof. reflexivity. Qed.

Lemma append_cons (c : ascii) (p a : string) :
  (String c p ++ a)%string = String c (p ++ a)%string.
Proof. reflexivity. Qed.

Lemma prefix_app_same (p a b : string) :
  String.prefix (p ++ a) (p ++ b) = String.prefix a b.
Proof.
  induction p as [|c p IH]; [reflexivity|].
  rewrite !append_cons, prefix_cons.
  destruct (ascii_dec c c); [exact IH | contradiction].
Qed.

Lemma prefix_split (p t : string) :
  String.prefix p t = true -> t = (p ++ drop_chars (String.length p) t)%string.
Proof.
  revert t. induction p as [|c p IH]; intros t Hp; [now destruct t|].
  destruct t as [|d t]; [discriminate|].
  rewrite prefix_cons in Hp. destruct (ascii_dec c d) as [-> |]; [|discriminate].
  cbn [String.length drop_chars]. rewrite append_cons. f_equal. now apply IH.
Qed.

Lemma take_digits_prefix (s : string) : String.prefix (take_digits s) s = true.
Proof.
  induction s as [|c r IH]; [reflexivity|].
  cbn [take_digits]. destruct (Num.is_digit c); [|reflexivity].
  rewrite prefix_cons. destruct (ascii_dec c c); [exact IH | contradiction].
Qed.

Lemma take_digits_all (s : string) : Num.all_digits (take_digits s) = true.
Proof.
  induction s as [|c r IH]; [reflexivity|].
  cbn [take_digits]. destruct (Num.is_digit c) eqn:E; [|reflexivity].
  cbn [Num.all_digits]. now rewrite E, IH.
Qed.

Lemma digit_not_space (c : ascii) : Num.is_digit c = true -> Py.is_space c = false.
Proof. destruct c as [[] [] [] [] [] [] [] []]; vm_compute; congruence. Qed.

Lemma rstrip_digits (s : string) : Num.all_digits s = true -> Py.rstrip s = s.
Proof.
  induction s as [|c r IH]; [reflexivity|].
  simpl Num.all_digits. intros Hd. apply andb_true_iff in Hd as [Hc Hr].
  rewrite rstrip_cons, (IH Hr), (digit_not_space c Hc). reflexivity.
Qed.

Lemma rstrip_app (a b : string) :
  Py.rstrip b <> "" -> Py.rstrip (a ++ b) = (a ++ Py.rstrip b)%string.
Proof.
  intros Hb. induction a as [|c a IH]; [reflexivity|].
  rewrite append_cons, rstrip_cons, IH.
  assert (String.eqb (a ++ Py.rstrip b) "" = false) as ->.
  { destruct a; [now apply String.eqb_neq | reflexivity]. }
  now rewrite andb_false_r.
Qed.

(** A match of the contact pattern is left as it is by [strip]. *)
Lemma match_prn_here_stripped (s m : string) :
  match_prn_here s = Some m ->
  Py.strip m = m /\ String.prefix m s = true /\ m <> "".
Proof.
  unfold match_prn_here. intros Hm.
  destruct (String.prefix prn_prefix s) eqn:Hp; [|discriminate].
  set (ds := take_digits (drop_chars (String.length prn_prefix) s)) in *.
  simpl in Hm. destruct (String.eqb_spec ds "") as [|Hne]; [discriminate|].
  injection Hm as <-. split.
  - unfold Py.strip.
    change (Py.lstrip (prn_prefix ++ ds)) with (prn_prefix ++ ds)%string.
    assert (Py.rstrip ds = ds) as Hr by apply rstrip_digits, take_digits_all.
    rewrite rstrip_app; rewrite Hr; [reflexivity | exact Hne].
  - split; [|discriminate].
    rewrite (prefix_split _ _ Hp) at 1.
    rewrite prefix_app_same. apply take_digits_prefix.
Qed.

Lemma search_prn_unfold (s : string) :
  search_prn s
  = match match_prn_here s with
    | Some m => Some m
    | None =>
        match s with
        | EmptyString => None
        | String _ r => search_prn r
        end
    end.
Proof. destruct s; reflexivity. Qed.

Lemma search_prn_found (s m : string) :
  search_prn s = Some m ->
  Py.strip m = m /\ Py.contains m s = true /\ m <> "".
Proof.
  induction s as [|c r IH]; rewrite search_prn_unfold;
    destruct (match_prn_here _) as [m'|] eqn:E; intros Hm; try discriminate.
  - injection Hm as <-.
    destruct (match_prn_here_stripped _ _ E) as (Hs & Hp & Hne).
    split; [exact Hs|]. split; [|exact Hne]. now rewrite contains_unfold, Hp.
  - destruct (IH Hm) as (Hs & Hc & Hne). split; [exact Hs|].
    split; [|exact Hne]. rewrite contains_unfold, Hc. apply orb_true_r.
Qed.

(** X19: the header values read from the text of the document. The purpose
    check of [verify] passes exactly when the text contains
    [REPAIR_AND_RETURN] and [SB-SHIPPING], wherever they stand; the contact
    check passes only if the text contains [SB-SHIPPING - PRN 5789187]; and
    the contact name that is read is null, [HK SB-SHIPPING], or a text
    found in the document. *)
Theorem pdf_header_checks (all_text : string) :
  (Py.eq (pdf_purpose all_text) (PStr required_purpose) = true
   <-> Py.contains "REPAIR_AND_RETURN" all_text = true
       /\ Py.contains "SB-SHIPPING" all_text = true)
  /\ (Py.eq (pdf_contact_name all_text) (PStr required_contact) = true ->
      Py.contains required_contact all_text = true)
  /\ (pdf_contact_name all_text = PNone
      \/ (pdf_contact_name all_text = PStr "HK SB-SHIPPING"
          /\ Py.contains "HK SB-SHIPPING" all_text = true)
      \/ exists m, pdf_contact_name all_text = PStr m
                   /\ Py.contains m all_text = true).
Proof.
  assert (pdf_contact_name all_text = PNone
          \/ (pdf_contact_name all_text = PStr "HK SB-SHIPPING"
              /\ Py.contains "HK SB-SHIPPING" all_text = true)
          \/ exists m, pdf_contact_name all_text = PStr m
                       /\ Py.contains m all_text = true) as Hshape.
  { unfold pdf_contact_name.
    destruct (Py.contains "SB-SHIPPING - PRN" all_text).
    - destruct (search_prn all_text) as [m|] eqn:Em.
      + destruct (search_prn_found _ _ Em) as (Hs & Hc & Hne).
        right. right. exists m. rewrite Hs.
        assert (Py.truthy (PStr m) = true) as ->.
        { simpl. now apply negb_true_iff, String.eqb_neq. }
        simpl. auto.
      + simpl. destruct (Py.contains "HK SB-SHIPPING" all_text); auto.
    - simpl. destruct (Py.contains "HK SB-SHIPPING" all_text); auto. }
  split; [|split].
  - unfold pdf_purpose. rewrite <- andb_true_iff.
    destruct (_ && _); simpl; split; auto; discriminate.
  - intros Hpass. apply py_eq_str in Hpass.
    destruct Hshape as [E | [[E _] | (m & E & Hc)]];
      rewrite E in Hpass; try discriminate.
    injection Hpass as ->. exact Hc.
  - exact Hshape.
Qed.

(** ** What the normaliser ignores *)

Lemma lstrip_lower (s : string) : Py.lstrip (Py.lower s) = Py.lower (Py.lstrip s).
Proof.
  induction s as [|c r IH]; [reflexivity|].
  cbn [Py.lower Py.lstrip]. rewrite lower_char_space.
  destruct (Py.is_space c); [exact IH | reflexivity].
Qed.

Lemma strip_lower (s : string) : Py.strip (Py.lower s) = Py.lower (Py.strip s).
Proof. unfold Py.strip. now rewrite lstrip_lower, rstrip_lower. Qed.

Lemma lstrip_fixed (s : string) : head_not_space s -> Py.lstrip s = s.
Proof. destruct s as [|c r]; [reflexivity|]. simpl. now intros ->. Qed.

Lemma strip_idem (s : string) : Py.strip (Py.strip s) = Py.strip s.
Proof.
  unfold Py.strip.
  rewrite (lstrip_fixed (Py.rstrip (Py.lstrip s))).
  - apply rstrip_idem.
  - apply rstrip_head, lstrip_head.
Qed.

Lemma lower_empty (s : string) : String.eqb (Py.lower s) "" = String.eqb s "".
Proof. destruct s; reflexivity. Qed.

Section NormalizerIgnores.
Context `{PyRuntime}.

(** X21: [normalize_description] ignores the case of letters and the white
    space around the text: lower-casing a description first, or stripping it
    first, gives the same normal form, so the description test of the
    matcher does not see such differences. *)
Theorem normalize_description_ignores (s : string) (other : pyval) :
  normalize_description (PStr (Py.lower s)) = normalize_description (PStr s)
  /\ normalize_description (PStr (Py.strip s)) = normalize_description (PStr s)
  /\ desc_match (PStr (Py.lower s)) other = desc_match (PStr s) other
  /\ desc_match (PStr (Py.strip s)) other = desc_match (PStr s) other.
Proof.
  assert (normalize_description (PStr (Py.lower s))
          = normalize_description (PStr s)) as Hlow.
  { unfold normalize_description. cbn [Py.truthy Py.str].
    rewrite lower_empty, strip_lower, lower_idem. reflexivity. }
  assert (normalize_description (PStr (Py.strip s))
          = normalize_description (PStr s)) as Hstrip.
  { unfold normalize_description. cbn [Py.truthy Py.str].
    rewrite strip_idem.
    destruct (String.eqb_spec (Py.strip s) "") as [E | _];
      destruct (String.eqb_spec s "") as [-> | _]; cbn [negb]; try reflexivity.
    now rewrite E. }
  split; [exact Hlow|]. split; [exact Hstrip|].
  unfold desc_match. now rewrite Hlow, Hstrip.
Qed.

(** X20: a row of the sheet whose quantity cell is the number zero is never
    appended as a line item (it is skipped, or the row raises), and a
    parsed document line whose quantity is the number zero is not appended
    either. *)
Theorem zero_quantity_never_appended (row : list pyval) (q : pyval)
    (items : list LineItem) (item : LineItem) :
  (row !! 1 = Some q -> numeric_zero q ->
   excel_row_item row = Some None \/ excel_row_item row = None)
  /\ (numeric_zero (quantity item) -> pdf_append items item = items).
Proof.
  split.
  - apply excel_row_zero_quantity.
  - apply pdf_append_zero_quantity.
Qed.

End NormalizerIgnores.
